(** * HalEndpointClient: a shallow embedding of [src/EndpointClient.ts]

    The TypeScript classes [Embed], [HalError] and [HalEndpointClient] are
    translated into Rocq functions over an explicit object store.  The
    store is needed because the constructor of [HalEndpointClient] removes
    the two envelope keys from the document it is given, in place, and
    several clients can be built over the same document.

    Conventions of the embedding:
    - a JavaScript value is a primitive, a reference into the store or a
      built-in object;
    - an object of the store is the finite map of its own properties, and
      a property read that finds no own property goes on to the prototype:
      [Object.prototype] for the objects that [JSON.parse] and the object
      literals make.  What the prototypes of arrays, strings, numbers,
      booleans and class instances hold depends on the engine: a read that
      would need them is [Unmodelled], except for the names that no
      built-in holds;
    - a string is the UTF-8 text of a JavaScript string, and its length
      and its characters are counted in UTF-16 code units, as JavaScript
      counts them;
    - a number is an integer;
    - a computation takes a store and gives a completion (a value or a
      thrown exception) and the store it leaves behind;
    - the navigation operations return promise objects ([Promise]), and an
      exception they throw is thrown at the caller; the promise that
      [processResult] returns is given by the completion of its callback:
      [Normal] for a fulfilled promise, [Throw] for a rejected one. *)

From Stdlib Require Import ZArith DecimalString DecimalNat.
From stdpp Require Import gmap strings list fin_maps.

(** ** Values and the object store *)

Abbreviation loc := nat.

Inductive Value :=
| VUndefined
| VNull
| VBool (b : bool)
| VNumber (n : Z)
| VString (s : string)
| VRef (l : loc)
| VBuiltin (path : string).   (* a built-in object, by its global path:
                                 [Object], [Object.prototype.toString], ... *)

#[global] Instance Value_eq_dec : EqDecision Value.
Proof. solve_decision. Defined.

#[global] Instance Value_inhabited : Inhabited Value := populate VUndefined.

(** The transport handle ([Fetcher] of [hr.fetcher]); opaque to this layer. *)
Inductive Fetcher := TransportPort (id : nat).

(** Instances of the two classes that hold references.  Their fields are
    assigned in the constructor only. *)
Record HalEndpointClient := mkClient {
  data : Value;
  fetcher : Fetcher;
  embeds : Value;
  links : Value
}.

Record Embed := mkEmbed {
  embed_name : string;
  embed_embeds : Value;
  embed_fetcher : Fetcher
}.

Inductive Obj :=
| OPlain (props : gmap string Value)
| OArray (elems : list Value)
| OClient (c : HalEndpointClient)
| OEmbed (e : Embed).

Abbreviation Heap := (list Obj).

(** ** Exceptions *)

(** [HalError]: the structured server error. *)
Record HalError := mkHalError {
  errorData : Value;
  statusCode : Z;
  message : Value
}.

Inductive Thrown :=
| TypeError
| SyntaxError
| Error (msg : string)
| ThrownHalError (e : HalError).

(** ** Completions and the store monad

    [Unmodelled] ends a run that has left what the embedding covers: a
    reference to nothing, a property that only the prototype of an array,
    a string, a number, a boolean or a class instance could hold, a
    conversion to number of a string or of an object, a loop out of fuel.
    No statement below ends there. *)

Inductive Completion (A : Type) :=
| Normal (a : A)
| Throw (e : Thrown)
| Unmodelled.

Arguments Normal {A} a.
Arguments Throw {A} e.
Arguments Unmodelled {A}.

Definition M (A : Type) : Type := Heap -> Completion A * Heap.

Definition ret {A} (a : A) : M A := fun h => (Normal a, h).

Definition throw {A} (e : Thrown) : M A := fun h => (Throw e, h).

Definition unmodelled {A} : M A := fun h => (Unmodelled, h).

Definition bind {A B} (m : M A) (k : A -> M B) : M B :=
  fun h =>
    match m h with
    | (Normal a, h') => k a h'
    | (Throw e, h') => (Throw e, h')
    | (Unmodelled, h') => (Unmodelled, h')
    end.

Notation "'let*' x ':=' m 'in' k" := (bind m (fun x => k))
  (at level 10, x name, m at level 100, k at level 200).

Notation "m ';;;' k" := (bind m (fun _ => k))
  (at level 100, k at level 200, right associativity).

(** ** Store operations *)

(** [new]: the fresh object sits at the end of the store. *)
Definition alloc (o : Obj) : M Value :=
  fun h => (Normal (VRef (length h)), h ++ [o]).

(** The key of the array element [i], as [for-in] and [a[i]] spell it. *)
Definition index_key (i : nat) : string :=
  NilEmpty.string_of_uint (Nat.to_uint i).

Definition array_index (k : string) (n : nat) : option nat :=
  List.find (fun i => String.eqb (index_key i) k) (seq 0 n).

(** *** The code units of a string

    JavaScript indexes a string by UTF-16 code units.  A string of the
    model is the UTF-8 text of the JavaScript string, so a code unit is
    one, two or three bytes of it, and a character outside the basic plane
    (four bytes) is two code units, a high and a low surrogate.  A
    surrogate on its own is written in the three-byte form of its number.
    A byte that begins no UTF-8 sequence is the text of no JavaScript
    string; it is kept as a unit of its own. *)

Definition byte_of (c : Ascii.ascii) : N := Ascii.N_of_ascii c.

(** [10xxxxxx] *)
Definition continuation (c : Ascii.ascii) : bool :=
  ((128 <=? byte_of c) && (byte_of c <? 192))%N.

(** The three bytes of the code unit [u], for [u] from [0x800] on. *)
Definition three_bytes (u : N) : string :=
  String (Ascii.ascii_of_N (224 + u / 4096))
    (String (Ascii.ascii_of_N (128 + (u / 64) mod 64))
       (String (Ascii.ascii_of_N (128 + u mod 64)) EmptyString)).

Fixpoint utf16_units (s : string) : list string :=
  match s with
  | EmptyString => []
  | String c1 s1 =>
      let stray := String c1 EmptyString :: utf16_units s1 in
      let b1 := byte_of c1 in
      if (b1 <? 128)%N then String c1 EmptyString :: utf16_units s1
      else
        match s1 with
        | String c2 s2 =>
            if negb (continuation c2) then stray
            else if ((192 <=? b1) && (b1 <? 224))%N
            then String c1 (String c2 EmptyString) :: utf16_units s2
            else
              match s2 with
              | String c3 s3 =>
                  if negb (continuation c3) then stray
                  else if ((224 <=? b1) && (b1 <? 240))%N
                  then String c1 (String c2 (String c3 EmptyString)) :: utf16_units s3
                  else
                    match s3 with
                    | String c4 s4 =>
                        if continuation c4 && ((240 <=? b1) && (b1 <? 248))%N
                        then
                          let point :=
                            ((b1 mod 8) * 262144 + (byte_of c2 mod 64) * 4096
                             + (byte_of c3 mod 64) * 64 + byte_of c4 mod 64)%N in
                          let offset := (point - 65536)%N in
                          three_bytes (55296 + offset / 1024)
                            :: three_bytes (56320 + offset mod 1024)
                            :: utf16_units s4
                        else stray
                    | EmptyString => stray
                    end
              | EmptyString => stray
              end
        | EmptyString => stray
        end
  end.

(** [s.length] *)
Definition string_length (s : string) : nat := length (utf16_units s).

(** [s[i]] *)
Definition char_at (s : string) (i : nat) : Value :=
  match utf16_units s !! i with
  | Some unit => VString unit
  | None => VUndefined
  end.

(** Own properties of a string: its length and its characters. *)
Definition string_prop (s k : string) : Value :=
  if String.eqb k "length" then VNumber (Z.of_nat (string_length s))
  else match array_index k (string_length s) with
       | Some i => char_at s i
       | None => VUndefined
       end.

Definition array_prop (elems : list Value) (k : string) : Value :=
  if String.eqb k "length" then VNumber (Z.of_nat (length elems))
  else match array_index k (length elems) with
       | Some i => default VUndefined (elems !! i)
       | None => VUndefined
       end.

Definition client_prop (c : HalEndpointClient) (k : string) : Value :=
  if String.eqb k "data" then data c
  else if String.eqb k "embeds" then embeds c
  else if String.eqb k "links" then links c
  else VUndefined.

Definition embed_prop (e : Embed) (k : string) : Value :=
  if String.eqb k "name" then VString (embed_name e)
  else if String.eqb k "embeds" then embed_embeds e
  else VUndefined.

(** *** Inherited properties

    [Object.prototype] holds the constructor [Object], ten methods and the
    accessor [__proto__], whose value on a plain object is
    [Object.prototype] itself.  A plain object inherits them all: [o[k]]
    finds them when [o] has no own property [k]. *)

Definition Object_prototype_methods : list string :=
  ["__defineGetter__"; "__defineSetter__"; "__lookupGetter__"; "__lookupSetter__";
   "hasOwnProperty"; "isPrototypeOf"; "propertyIsEnumerable";
   "toLocaleString"; "toString"; "valueOf"].

Definition Object_prototype (k : string) : Value :=
  if String.eqb k "constructor" then VBuiltin "Object"
  else if String.eqb k "__proto__" then VBuiltin "Object.prototype"
  else if existsb (String.eqb k) Object_prototype_methods
  then VBuiltin ("Object.prototype." +:+ k)
  else VUndefined.

(** The names that no built-in object and no built-in prototype holds:
    the property names that the program reads from the documents it is
    sent ([length] apart, which strings, arrays and functions have), and
    the decimal numerals. *)

Definition document_names : list string :=
  ["_embedded"; "_links"; "message"; "errors"; "href"; "method"; "data"].

Definition is_digit (c : Ascii.ascii) : bool :=
  ((48 <=? byte_of c) && (byte_of c <=? 57))%N.

Fixpoint all_digits (k : string) : bool :=
  match k with
  | EmptyString => true
  | String c rest => is_digit c && all_digits rest
  end.

Definition absent_from_builtins (k : string) : bool :=
  existsb (String.eqb k) document_names
  || (negb (String.eqb k "") && all_digits k).

(** The property [k] of [o], found on [o] or on [Object.prototype]. *)
Definition obj_prop (o : Obj) (k : string) : Value :=
  match o with
  | OPlain props => default (Object_prototype k) (props !! k)
  | OArray elems => array_prop elems k
  | OClient c => client_prop c k
  | OEmbed e => embed_prop e k
  end.

(** Whether [obj_prop] covers the read: every name on a plain object; on
    an array or a class instance the own properties that are values, and
    the names that the prototypes cannot hold. *)
Definition modelled_prop (o : Obj) (k : string) : bool :=
  match o with
  | OPlain _ => true
  | OArray _ => absent_from_builtins k || String.eqb k "length"
  | OClient _ =>
      absent_from_builtins k || existsb (String.eqb k) ["length"; "embeds"; "links"]
  | OEmbed _ =>
      absent_from_builtins k || existsb (String.eqb k) ["length"; "name"; "embeds"]
  end.

(** [v[k]] and [v.k]: reading a property of [undefined] or [null] throws.
    A boolean or a number has no own property, a string has its length and
    its characters, and a built-in has none of the names above. *)
Definition getProp (v : Value) (k : string) : M Value :=
  match v with
  | VUndefined | VNull => throw TypeError
  | VBool _ | VNumber _ =>
      if absent_from_builtins k || String.eqb k "length" then ret VUndefined
      else unmodelled
  | VString s =>
      if absent_from_builtins k || String.eqb k "length" then ret (string_prop s k)
      else unmodelled
  | VBuiltin _ => if absent_from_builtins k then ret VUndefined else unmodelled
  | VRef l => fun h =>
      match h !! l with
      | Some o => if modelled_prop o k then (Normal (obj_prop o k), h) else (Unmodelled, h)
      | None => (Unmodelled, h)
      end
  end.

(** [v[i]] for a numeric [i]. *)
Definition getIndex (v : Value) (i : nat) : M Value :=
  match v with
  | VUndefined | VNull => throw TypeError
  | VBool _ | VNumber _ | VBuiltin _ => ret VUndefined
  | VString s => ret (char_at s i)
  | VRef l => fun h =>
      match h !! l with
      | Some (OArray elems) => (Normal (default VUndefined (elems !! i)), h)
      | Some o => (Normal (obj_prop o (index_key i)), h)
      | None => (Unmodelled, h)
      end
  end.

(** [delete v.k] for a key that is not an array index (the source deletes
    [_embedded] and [_links] only).  Nothing happens on a primitive or on
    an array; [undefined] and [null] throw. *)
Definition deleteProp (v : Value) (k : string) : M unit :=
  match v with
  | VUndefined | VNull => throw TypeError
  | VBool _ | VNumber _ | VString _ | VBuiltin _ => ret tt
  | VRef l => fun h =>
      match h !! l with
      | Some (OPlain props) => (Normal tt, <[l := OPlain (delete k props)]> h)
      | Some _ => (Normal tt, h)
      | None => (Unmodelled, h)
      end
  end.

(** [a.push(x)] on an array of the store. *)
Definition push (a : Value) (x : Value) : M unit :=
  match a with
  | VRef l => fun h =>
      match h !! l with
      | Some (OArray elems) => (Normal tt, <[l := OArray (elems ++ [x])]> h)
      | _ => (Unmodelled, h)
      end
  | _ => unmodelled
  end.

(** [i < n] with [n] converted by ToNumber: [undefined] is NaN and compares
    false, [null] is 0, a boolean is 0 or 1.  The conversion of a string
    or of an object is not modelled. *)
Definition lessThan (i : nat) (n : Value) : M bool :=
  match n with
  | VNumber z => ret (Z.of_nat i <? z)%Z
  | VUndefined => ret false
  | VNull => ret false
  | VBool b => ret (if b then Nat.eqb i 0 else false)
  | VString _ | VRef _ | VBuiltin _ => unmodelled
  end.

(** [v !== undefined] *)
Definition defined (v : Value) : bool :=
  match v with
  | VUndefined => false
  | _ => true
  end.

(** Number to string, for an integer. *)
Definition string_of_number (n : Z) : string :=
  NilZero.string_of_int (Z.to_int n).

(** ** The transport response ([Response] of [hr.fetcher]) *)

Record Response := mkResponse {
  ok : bool;
  status : Z;
  statusText : string;
  headers_get : string -> option string;   (* [headers.get(name)]: string or null *)
  text : string                            (* what [text()] resolves to *)
}.

(** [if (s)] for [s] a string or null. *)
Definition truthy_header (s : option string) : bool :=
  match s with
  | Some h => negb (String.eqb h "")
  | None => false
  end.

(** [h.length >= m.length && h.substring(0, m.length) === m], compared
    byte by byte; for a media type in ASCII, as both below are, this is the
    comparison by code units. *)
Definition starts_with (h m : string) : bool :=
  (String.length m <=? String.length h)%nat
  && String.eqb (String.substring 0 (String.length m) h) m.

Definition halcyonJsonMimeType : string := "application/json+halcyon".
Definition jsonMimeType : string := "application/json".

Definition unsupported_message (contentHeader : string) : string :=
  "Unsupported response type " +:+ contentHeader +:+ ".".

Definition generic_message (response : Response) : string :=
  "Generic server error with status " +:+ string_of_number (status response)
  +:+ " " +:+ statusText response +:+ " returned.".

(** The double quote. *)
Definition quote : string := String (Ascii.ascii_of_nat 34) EmptyString.

Definition cannot_find_ref (ref : string) : string :=
  "Cannot find ref " +:+ quote +:+ ref +:+ quote +:+ ".".

(** ** [HalError] *)

(** [new HalError(errorData, statusCode)] *)
Definition new_HalError (errorData : Value) (statusCode : Z) : M HalError :=
  let* message := getProp errorData "message" in
  ret (mkHalError errorData statusCode message).

Definition hasValidationErrors (this : HalError) : M bool :=
  let* errors := getProp (errorData this) "errors" in
  ret (defined errors).

Definition getValidationError (this : HalError) (name : string) : M Value :=
  let* has := hasValidationErrors this in
  if has then
    let* errors := getProp (errorData this) "errors" in
    getProp errors name
  else ret VUndefined.

Definition hasValidationError (this : HalError) (name : string) : M bool :=
  let* has := hasValidationErrors this in
  if has then
    let* errors := getProp (errorData this) "errors" in
    let* e := getProp errors name in
    ret (defined e)
  else ret false.

Definition getValidationErrors (this : HalError) : M Value :=
  getProp (errorData this) "errors".

Definition getStatusCode (this : HalError) : Z := statusCode this.

(** ** [HalEndpointClient]: construction *)

(** [new HalEndpointClient(data, fetcher)].  The instance is put in the
    store once its fields are known; nothing can reach it earlier. *)
Definition new_HalEndpointClient (data : Value) (fetcher : Fetcher) : M Value :=
  let* embeds := getProp data "_embedded" in
  deleteProp data "_embedded" ;;;
  let* links := getProp data "_links" in
  deleteProp data "_links" ;;;
  alloc (OClient (mkClient data fetcher embeds links)).

Definition GetData (this : HalEndpointClient) : Value := data this.

(** ** [Embed] *)

(** [new Embed(name, embeds, fetcher)] *)
Definition new_Embed (name : string) (embeds : Value) (fetcher : Fetcher) : Embed :=
  mkEmbed name embeds fetcher.

(** The [for] loop of [GetAllClients].  The bound [this.embeds.length] is
    read again at every turn, as in the source; [fuel] bounds the number
    of turns. *)
Fixpoint GetAllClients_loop (fuel : nat) (this : Embed) (embeddedClients : Value)
    (i : nat) : M unit :=
  let* len := getProp (embed_embeds this) "length" in
  let* below := lessThan i len in
  if below then
    match fuel with
    | O => unmodelled
    | S fuel' =>
        let* doc := getIndex (embed_embeds this) i in
        let* embed := new_HalEndpointClient doc (embed_fetcher this) in
        push embeddedClients embed ;;;
        GetAllClients_loop fuel' this embeddedClients (S i)
    end
  else ret tt.

(** The number of turns the loop can take: the bound it finds at entry. *)
Definition loop_turns (len : Value) : nat :=
  match len with
  | VNumber z => Z.to_nat z
  | VBool true => 1
  | _ => 0
  end.

(** [GetAllClients()].  The length read before the loop only sets the
    fuel: it is the first thing the loop reads as well. *)
Definition GetAllClients (this : Embed) : M Value :=
  let* embeddedClients := alloc (OArray []) in
  let* len := getProp (embed_embeds this) "length" in
  GetAllClients_loop (loop_turns len) this embeddedClients 0 ;;;
  ret embeddedClients.

(** ** [HalEndpointClient]: embeds and links *)

Definition GetEmbed (this : HalEndpointClient) (name : string) : M Embed :=
  let* list := getProp (embeds this) name in
  ret (new_Embed name list (fetcher this)).

Definition HasEmbed (this : HalEndpointClient) (name : string) : M bool :=
  if defined (embeds this) then
    let* e := getProp (embeds this) name in
    ret (defined e)
  else ret false.

Definition GetLink (this : HalEndpointClient) (ref : string) : M Value :=
  getProp (links this) ref.

Definition HasLink (this : HalEndpointClient) (ref : string) : M bool :=
  if defined (links this) then
    let* l := getProp (links this) ref in
    ret (defined l)
  else ret false.

Definition HasLinkDoc (this : HalEndpointClient) (ref : string) : M bool :=
  HasLink this (ref +:+ ".Docs").

(** ** Payloads supplied by the caller

    Query objects, request bodies and form payloads are values of the
    calling program.  They are not shared with the documents of the store
    and are modelled as trees.  An object lists its own enumerable
    properties in [for-in] order and names the constructor it inherits;
    an own property called [constructor] hides the inherited one. *)

Inductive Ctor :=
| ObjectCtor                    (* [{}.constructor] *)
| OtherCtor (name : string).    (* [Date], [Blob], [File], a class, ... *)

#[warnings="-register-all"]
Inductive JsData :=
| DUndefined
| DNull
| DBool (b : bool)
| DNumber (n : Z)
| DString (s : string)
| DArray (elems : list JsData)
| DObject (ctor : Ctor) (props : list (string * JsData)).

(** [if (v)] *)
Definition truthy (v : JsData) : bool :=
  match v with
  | DUndefined | DNull | DBool false | DNumber Z0 | DString EmptyString => false
  | _ => true
  end.

Fixpoint own_prop (k : string) (props : list (string * JsData)) : option JsData :=
  match props with
  | [] => None
  | (k', v) :: rest => if String.eqb k' k then Some v else own_prop k rest
  end.

(** [v.constructor === {}.constructor], for a [v] that is not [undefined]
    or [null]. *)
Definition constructor_is_Object (v : JsData) : bool :=
  match v with
  | DObject ctor props =>
      match own_prop "constructor" props with
      | Some _ => false
      | None => match ctor with ObjectCtor => true | OtherCtor _ => false end
      end
  | _ => false
  end.

(** [FormData]: the fields appended so far, oldest first. *)
Definition FormData := list (string * JsData).

Definition append (form_data : FormData) (name : string) (value : JsData) : FormData :=
  form_data ++ [(name, value)].

(** [if (parentKey)] *)
Definition truthy_key (parentKey : option string) : bool :=
  match parentKey with
  | Some p => negb (String.eqb p "")
  | None => false
  end.

(** [constructedKey] after the [if (parentKey)] of the loop body. *)
Definition constructedKey (parentKey : option string) (key : string) : string :=
  if truthy_key parentKey then default "" parentKey +:+ "." +:+ key else key.

(** The characters of a string, as [for-in] visits them: one entry per
    code unit, from the index [i] on. *)
Fixpoint unit_entries (units : list string) (i : nat) : list (string * JsData) :=
  match units with
  | [] => []
  | unit :: rest => (index_key i, DString unit) :: unit_entries rest (S i)
  end.

Definition string_entries (s : string) (i : nat) : list (string * JsData) :=
  unit_entries (utf16_units s) i.

(** [jsonToFormData(inJSON, inFormData, parentKey)].  The form is threaded
    through the calls; the source mutates one [FormData] object. *)
Fixpoint jsonToFormData (inJSON : JsData) (inFormData : option FormData)
    (parentKey : option string) {struct inJSON} : FormData :=
  let form_data := default [] inFormData in
  match inJSON with
  | DObject _ props =>
      (fix each (entries : list (string * JsData)) (form_data : FormData) : FormData :=
         match entries with
         | [] => form_data
         | (key, value) :: rest =>
             let constructedKey := constructedKey parentKey key in
             each rest
               (if truthy value && constructor_is_Object value
                then jsonToFormData value (Some form_data) (Some constructedKey)
                else append form_data constructedKey value)
         end) props form_data
  | DArray elems =>
      (fix each (entries : list JsData) (i : nat) (form_data : FormData) : FormData :=
         match entries with
         | [] => form_data
         | value :: rest =>
             let constructedKey := constructedKey parentKey (index_key i) in
             each rest (S i)
               (if truthy value && constructor_is_Object value
                then jsonToFormData value (Some form_data) (Some constructedKey)
                else append form_data constructedKey value)
         end) elems 0 form_data
  | DString s =>
      fold_left (fun form_data '(key, value) =>
                   append form_data (constructedKey parentKey key) value)
                (string_entries s 0) form_data
  | _ => form_data
  end.

(** ** Requests *)

Inductive ReqBody :=
| BodyUndefined
| BodyString (s : string)
| BodyFormData (f : FormData).

Record LoadOptions := mkLoadOptions {
  reqBody : ReqBody;
  contentType : option string
}.

Record Request := mkRequest {
  url : Value;
  method : Value;
  body : ReqBody;
  headers : list (string * Value)
}.

(** The promises the client hands out. *)
Inductive Promise :=
| Fetch (fetcher : Fetcher) (req : Request)               (* [fetcher.fetch(url, init)] *)
| ThenProcessResult (p : Promise) (fetcher : Fetcher).    (* [p.then(r => processResult(r, fetcher))] *)

(** What a promise of the client is fulfilled with. *)
Inductive Fulfilled :=
| RawResponse (r : Response)
| Client (c : Value).

Definition LoadRaw (link : Value) (fetcher : Fetcher) (options : option LoadOptions)
    : M Promise :=
  let options := default (mkLoadOptions BodyUndefined None) options in
  let headers := [("Accept", VString halcyonJsonMimeType); ("bearer", VNull)] in
  let headers :=
    match contentType options with
    | Some ct => headers ++ [("Content-Type", VString ct)]
    | None => headers
    end in
  let* href := getProp link "href" in
  let* method := getProp link "method" in
  ret (Fetch fetcher (mkRequest href method (reqBody options) headers)).

Definition Load (link : Value) (fetcher : Fetcher) (options : option LoadOptions)
    : M Promise :=
  let options := default (mkLoadOptions BodyUndefined None) options in
  let* p := LoadRaw link fetcher (Some options) in
  ret (ThenProcessResult p fetcher).

(** ** The client over its external collaborators

    [JSON.parse], [JSON.stringify] and the [Uri] class of [hr.uri] are not
    part of this repository.  [JSON_parse] builds its result in the store
    and throws [SyntaxError] on a malformed text; [Uri_build href query]
    is [uri.build()] after [new Uri(href)] and
    [uri.setQueryFromObject(query)]. *)

Section Client.

Variable JSON_parse : string -> M Value.
Variable JSON_stringify : JsData -> option string.
Variable Uri_build : Value -> JsData -> string.

(** *** Response classification *)

(** [parseResult(response, data)]; every caller leaves the reviver out. *)
Definition parseResult (response : Response) (data : string) : M Value :=
  let contentHeader := headers_get response "content-type" in
  if truthy_header contentHeader then
    let contentHeader := default "" contentHeader in
    if starts_with contentHeader halcyonJsonMimeType
       || (starts_with contentHeader jsonMimeType && negb (ok response))
    then
      if String.eqb data "" then ret VNull else JSON_parse data
    else throw (Error (unsupported_message contentHeader))
  else
    alloc (OPlain {[ "_links" := VUndefined; "_embedded" := VUndefined ]}).

(** [processResult(response, fetcher)]: the promise
    [response.text().then(...)], given by what it settles to. *)
Definition processResult (response : Response) (fetcher : Fetcher) : M Value :=
  let data := text response in
  let* parsedData := parseResult response data in
  if ok response then new_HalEndpointClient parsedData fetcher
  else
    let* message := getProp parsedData "message" in
    if defined message then
      let* e := new_HalError parsedData (status response) in
      throw (ThrownHalError e)
    else throw (Error (generic_message response)).

(** What a promise settles to once the transport has answered [response]. *)
Fixpoint settle (p : Promise) (response : Response) : M Fulfilled :=
  match p with
  | Fetch _ _ => ret (RawResponse response)
  | ThenProcessResult p' fetcher =>
      let* r := settle p' response in
      match r with
      | RawResponse r => let* c := processResult r fetcher in ret (Client c)
      | Client _ => unmodelled
      end
  end.

(** *** Query composition *)

Definition GetQueryLink (link : Value) (query : JsData) : M Value :=
  match query with
  | DUndefined | DNull => ret link   (* No query, just return original link. *)
  | _ =>
      let* href := getProp link "href" in
      let href := Uri_build href query in
      let* method := getProp link "method" in
      alloc (OPlain {[ "href" := VString href; "method" := method ]})
  end.

(** *** Navigation *)

Definition json_body (data : JsData) : option LoadOptions :=
  Some (mkLoadOptions
          (match JSON_stringify data with
           | Some s => BodyString s
           | None => BodyUndefined
           end)
          (Some jsonMimeType)).

Definition form_body (data : JsData) : option LoadOptions :=
  Some (mkLoadOptions (BodyFormData (jsonToFormData data None None)) None).

Definition LoadLink (this : HalEndpointClient) (ref : string) : M Promise :=
  let* has := HasLink this ref in
  if has then
    let* link := GetLink this ref in
    Load link (fetcher this) None
  else throw (Error (cannot_find_ref ref)).

Definition LoadLinkWithQuery (this : HalEndpointClient) (ref : string) (query : JsData)
    : M Promise :=
  let* has := HasLink this ref in
  if has then
    let* link := GetLink this ref in
    let* link := GetQueryLink link query in
    Load link (fetcher this) None
  else throw (Error (cannot_find_ref ref)).

Definition LoadLinkWithBody (this : HalEndpointClient) (ref : string) (data : JsData)
    : M Promise :=
  let* has := HasLink this ref in
  if has then
    let* link := GetLink this ref in
    Load link (fetcher this) (json_body data)
  else throw (Error (cannot_find_ref ref)).

Definition LoadLinkWithQueryAndBody (this : HalEndpointClient) (ref : string)
    (query data : JsData) : M Promise :=
  let* has := HasLink this ref in
  if has then
    let* link := GetLink this ref in
    let* link := GetQueryLink link query in
    Load link (fetcher this) (json_body data)
  else throw (Error (cannot_find_ref ref)).

Definition LoadLinkWithForm (this : HalEndpointClient) (ref : string) (data : JsData)
    : M Promise :=
  let* has := HasLink this ref in
  if has then
    let* link := GetLink this ref in
    Load link (fetcher this) (form_body data)
  else throw (Error (cannot_find_ref ref)).

Definition LoadLinkWithQueryAndForm (this : HalEndpointClient) (ref : string)
    (query data : JsData) : M Promise :=
  let* has := HasLink this ref in
  if has then
    let* link := GetLink this ref in
    let* link := GetQueryLink link query in
    Load link (fetcher this) (form_body data)
  else throw (Error (cannot_find_ref ref)).

Definition LoadRawLink (this : HalEndpointClient) (ref : string) : M Promise :=
  let* has := HasLink this ref in
  if has then
    let* link := GetLink this ref in
    LoadRaw link (fetcher this) None
  else throw (Error (cannot_find_ref ref)).

Definition LoadRawLinkWithQuery (this : HalEndpointClient) (ref : string) (query : JsData)
    : M Promise :=
  let* has := HasLink this ref in
  if has then
    let* link := GetLink this ref in
    let* link := GetQueryLink link query in
    LoadRaw link (fetcher this) None
  else throw (Error (cannot_find_ref ref)).

Definition LoadRawLinkWithBody (this : HalEndpointClient) (ref : string) (data : JsData)
    : M Promise :=
  let* has := HasLink this ref in
  if has then
    let* link := GetLink this ref in
    LoadRaw link (fetcher this) (json_body data)
  else throw (Error (cannot_find_ref ref)).

Definition LoadRawLinkWithQueryAndBody (this : HalEndpointClient) (ref : string)
    (query data : JsData) : M Promise :=
  let* has := HasLink this ref in
  if has then
    let* link := GetLink this ref in
    let* link := GetQueryLink link query in
    LoadRaw link (fetcher this) (json_body data)
  else throw (Error (cannot_find_ref ref)).

Definition LoadRawLinkWithForm (this : HalEndpointClient) (ref : string) (data : JsData)
    : M Promise :=
  let* has := HasLink this ref in
  if has then
    let* link := GetLink this ref in
    LoadRaw link (fetcher this) (form_body data)
  else throw (Error (cannot_find_ref ref)).

Definition LoadRawLinkWithQueryAndForm (this : HalEndpointClient) (ref : string)
    (query data : JsData) : M Promise :=
  let* has := HasLink this ref in
  if has then
    let* link := GetLink this ref in
    let* link := GetQueryLink link query in
    LoadRaw link (fetcher this) (form_body data)
  else throw (Error (cannot_find_ref ref)).

Definition LoadLinkDoc (this : HalEndpointClient) (ref : string) : M Promise :=
  LoadLink this (ref +:+ ".Docs").

End Client.

(** ** The second version of the pipeline kept in [src/EndpointClient.ts]

    The file carries a second copy of the module.  Its [parseResult]
    rejects a response without content type, and answers a failed response
    it cannot parse with the generic server error; its [processResult]
    reads as the one above. *)

Module SecondVersion.
Section Client.

Variable JSON_parse : string -> M Value.

Definition parseResult (response : Response) (data : string) : M Value :=
  let contentHeader := headers_get response "content-type" in
  if negb (truthy_header contentHeader) then
    throw (Error "Missing content-type in response header. Cannot parse result.")
  else
    let contentHeader := default "" contentHeader in
    if starts_with contentHeader halcyonJsonMimeType
       || (starts_with contentHeader jsonMimeType && negb (ok response))
    then
      if String.eqb data "" then ret VNull else JSON_parse data
    else if negb (ok response) then
      (* If this is an error and we couldn't parse it *)
      throw (Error (generic_message response))
    else throw (Error (unsupported_message contentHeader)).

Definition processResult (response : Response) (fetcher : Fetcher) : M Value :=
  let data := text response in
  let* parsedData := parseResult response data in
  if ok response then new_HalEndpointClient parsedData fetcher
  else
    let* message := getProp parsedData "message" in
    if defined message then
      let* e := new_HalError parsedData (status response) in
      throw (ThrownHalError e)
    else throw (Error (generic_message response)).

End Client.
End SecondVersion.

(** ** Vocabulary of the statements *)

(** The content type of a response starts with the media type [mime].  A
    response without the header matches nothing. *)
Definition content_type_matches (response : Response) (mime : string) : bool :=
  match headers_get response "content-type" with
  | Some ct => starts_with ct mime
  | None => false
  end.

(** The envelope [parseResult] makes up for a response without content
    type. *)
Definition empty_envelope : Obj :=
  OPlain {[ "_links" := VUndefined; "_embedded" := VUndefined ]}.

(** A header table with at most the content type. *)
Definition content_type_only (ct : option string) : string -> option string :=
  fun name => if String.eqb name "content-type" then ct else None.

Definition missing_content_type : string :=
  "Missing content-type in response header. Cannot parse result.".

(** The relation [ref] is not found in the link table of [this]: the
    client has no table, or its table is an object that has no property
    [ref], neither of its own nor from [Object.prototype]. *)
Inductive NoRelation (h : Heap) (this : HalEndpointClient) (ref : string) : Prop :=
| no_link_table :
    links this = VUndefined -> NoRelation h this ref
| not_in_link_table l table :
    links this = VRef l -> h !! l = Some (OPlain table) -> table !! ref = None ->
    Object_prototype ref = VUndefined ->
    NoRelation h this ref.

(** A [JSON.parse] for the runs below that never reach it. *)
Definition JSON_rejects : string -> M Value := fun _ => throw SyntaxError.

Definition transport : Fetcher := TransportPort 0.

(** ** The multipart flattening, as the specification words it

    Every key [k] under the accumulated prefix [p] gives the field [p.k],
    or [k] at the top level; the value is kept as it is, except that a
    value whose constructor is the bare object constructor is descended
    into, with [p.k] as the new prefix. *)




(** One turn of the [for-in] loop of [jsonToFormData]. *)
Definition jsonToFormData_turn (parentKey : option string) (form_data : FormData)
    (entry : string * JsData) : FormData :=
  let constructedKey := constructedKey parentKey entry.1 in
  if truthy entry.2 && constructor_is_Object entry.2
  then jsonToFormData entry.2 (Some form_data) (Some constructedKey)
  else append form_data constructedKey entry.2.


(** Structural induction on payloads, through the lists they nest. *)
Section JsData_induction.

Variable P : JsData -> Prop.
Hypothesis P_undefined : P DUndefined.
Hypothesis P_null : P DNull.
Hypothesis P_bool : forall b, P (DBool b).
Hypothesis P_number : forall n, P (DNumber n).
Hypothesis P_string : forall s, P (DString s).
Hypothesis P_array : forall elems, Forall P elems -> P (DArray elems).
Hypothesis P_object :
  forall ctor props, Forall (fun entry => P entry.2) props -> P (DObject ctor props).

Fixpoint JsData_nested_ind (v : JsData) : P v :=
  match v with
  | DUndefined => P_undefined
  | DNull => P_null
  | DBool b => P_bool b
  | DNumber n => P_number n
  | DString s => P_string s
  | DArray elems =>
      P_array elems
        ((fix all (l : list JsData) : Forall P l :=
            match l with
            | [] => List.Forall_nil P
            | x :: l' => List.Forall_cons P x l' (JsData_nested_ind x) (all l')
            end) elems)
  | DObject ctor props =>
      P_object ctor props
        ((fix all (l : list (string * JsData)) : Forall (fun entry => P entry.2) l :=
            match l with
            | [] => List.Forall_nil _
            | x :: l' => List.Forall_cons _ x l' (JsData_nested_ind x.2) (all l')
            end) props)
  end.

End JsData_induction.

(** The payload of the specification's example:
    [{a: {b: 1, c: "s"}, d: [1, 2]}]. *)
Definition nested_example : JsData :=
  DObject ObjectCtor
    [("a", DObject ObjectCtor [("b", DNumber 1); ("c", DString "s")]);
     ("d", DArray [DNumber 1; DNumber 2])].


(** ** Documents and the clients built over them *)

(** A document once a client has been built over it. *)
Definition strip (props : gmap string Value) : gmap string Value :=
  delete "_links" (delete "_embedded" props).

Definition strip_cell (o : Obj) : Obj :=
  match o with
  | OPlain props => OPlain (strip props)
  | _ => o
  end.

(** [d] is a document: an object of the store. *)
Definition is_document (h : Heap) (d : Value) : Prop :=
  exists l props, d = VRef l /\ h !! l = Some (OPlain props).

(** The client that the constructor builds over the document [d] when the
    properties of [d] are [props]. *)
Definition client_over (d : Value) (f : Fetcher) (props : gmap string Value)
    : HalEndpointClient :=
  mkClient d f (default VUndefined (props !! "_embedded"))
               (default VUndefined (props !! "_links")).

(** ** Sample data for the runs

    The store holds a root document with a link table and an embedded
    map; the embedded list [items] has one document, with a link table of
    its own. *)
Definition sample_store : Heap :=
  [ OPlain {[ "_links" := VRef 1; "_embedded" := VRef 3; "title" := VString "root" ]};
    OPlain {[ "self" := VRef 2 ]};
    OPlain {[ "href" := VString "/a"; "method" := VString "GET" ]};
    OPlain {[ "items" := VRef 4 ]};
    OArray [VRef 5];
    OPlain {[ "_links" := VRef 6; "id" := VNumber 7 ]};
    OPlain {[ "self" := VRef 7 ]};
    OPlain {[ "href" := VString "/a/7"; "method" := VString "GET" ]} ].

(** The client over the root document, and the wrapper of [items]. *)
Definition sample_client : HalEndpointClient :=
  mkClient (VRef 0) transport (VRef 3) (VRef 1).

Definition sample_embed : Embed := new_Embed "items" (VRef 4) transport.

(** [{page: 2}] *)
Definition sample_query : JsData := DObject ObjectCtor [("page", DNumber 2)].

(** Stand-ins for [JSON.stringify] and [Uri]. *)
Definition sample_stringify : JsData -> option string := fun _ => None.
Definition sample_uri : Value -> JsData -> string := fun _ _ => "/a?page=2".

(** The error body of the specification,
    [{"message":"bad","errors":{"name":"required"}}], and a [JSON.parse]
    that reads this one text. *)
Definition error_body : string :=
  "{" +:+ quote +:+ "message" +:+ quote +:+ ":" +:+ quote +:+ "bad" +:+ quote
  +:+ "," +:+ quote +:+ "errors" +:+ quote +:+ ":{" +:+ quote +:+ "name" +:+ quote
  +:+ ":" +:+ quote +:+ "required" +:+ quote +:+ "}}".

Definition JSON_parse_error_body : string -> M Value :=
  fun data =>
    if String.eqb data error_body then
      let* errors := alloc (OPlain {[ "name" := VString "required" ]}) in
      alloc (OPlain {[ "message" := VString "bad"; "errors" := errors ]})
    else throw SyntaxError.

Definition html_failure : Response :=
  mkResponse false 500 "Internal Server Error"
             (content_type_only (Some "text/html")) "<html></html>".

Definition json_success : Response :=
  mkResponse true 200 "OK" (content_type_only (Some "application/json")) "{}".

Definition untyped_success : Response :=
  mkResponse true 200 "OK" (content_type_only None) "{}".

Definition empty_typed_success : Response :=
  mkResponse true 200 "OK" (content_type_only (Some "")) "{}".

Definition empty_halcyon_success : Response :=
  mkResponse true 200 "OK"
             (content_type_only (Some "application/json+halcyon; charset=utf-8")) "".

Definition validation_failure : Response :=
  mkResponse false 400 "Bad Request" (content_type_only (Some "application/json"))
             error_body.


(** ** The rest of [HalError] *)

(** [c.toUpperCase()] for one ASCII character. *)
Definition upper_ascii (c : Ascii.ascii) : Ascii.ascii :=
  let n := Ascii.nat_of_ascii c in
  if (97 <=? n)%nat && (n <=? 122)%nat then Ascii.ascii_of_nat (n - 32) else c.

Definition is_ascii (c : Ascii.ascii) : bool := (Ascii.nat_of_ascii c <? 128)%nat.

(** [addKey(baseName, key)].  [key[0]] of the empty string is [undefined],
    and calling [toUpperCase] on it throws.  A first character outside
    ASCII is not modelled. *)
Definition addKey (baseName key : string) : Completion string :=
  if negb (String.eqb baseName "") then
    match key with
    | EmptyString => Throw TypeError
    | String c rest =>
        if is_ascii c
        then Normal (baseName +:+ "." +:+ String (upper_ascii c) rest)
        else Unmodelled
    end
  else Normal key.

(** The index of [addIndex]: a string or a number. *)
Inductive IndexArg :=
| IndexString (s : string)
| IndexNumber (n : Z).

Definition string_of_index (index : IndexArg) : string :=
  match index with
  | IndexString s => s
  | IndexNumber n => string_of_number n
  end.

Definition addIndex (baseName key : string) (index : IndexArg) : string :=
  baseName +:+ key +:+ "[" +:+ string_of_index index +:+ "]".

(** ** Enumerating links and embeds

    [for (var key in o)] visits every own key of [o] once; the order is
    the one of the JavaScript engine and is left open here ([for_in]).
    Over [undefined], [null], a boolean, a number or a built-in the loop
    has no turn: what the built-ins hold is not enumerable. *)

Section Enumeration.

Variable for_in : gmap string Value -> list string.

Definition forIn (v : Value) : M (list string) :=
  match v with
  | VUndefined | VNull | VBool _ | VNumber _ | VBuiltin _ => ret []
  | VString s => ret (index_key <$> seq 0 (string_length s))
  | VRef l => fun h =>
      match h !! l with
      | Some (OPlain props) => (Normal (for_in props), h)
      | Some (OArray elems) => (Normal (index_key <$> seq 0 (length elems)), h)
      | _ => (Unmodelled, h)
      end
  end.

Fixpoint GetAllEmbeds_loop (this : HalEndpointClient) (result : Value)
    (keys : list string) : M unit :=
  match keys with
  | [] => ret tt
  | key :: rest =>
      let* list := getProp (embeds this) key in
      let* embed := alloc (OEmbed (new_Embed key list (fetcher this))) in
      push result embed ;;;
      GetAllEmbeds_loop this result rest
  end.

Definition GetAllEmbeds (this : HalEndpointClient) : M Value :=
  let* result := alloc (OArray []) in
  let* keys := forIn (embeds this) in
  GetAllEmbeds_loop this result keys ;;;
  ret result.

Fixpoint GetAllLinks_loop (this : HalEndpointClient) (linkInfos : Value)
    (keys : list string) : M unit :=
  match keys with
  | [] => ret tt
  | key :: rest =>
      let* link := getProp (links this) key in
      let* href := getProp link "href" in
      let* method := getProp link "method" in
      let* info := alloc (OPlain {[ "href" := href; "method" := method;
                                    "rel" := VString key ]}) in
      push linkInfos info ;;;
      GetAllLinks_loop this linkInfos rest
  end.

Definition GetAllLinks (this : HalEndpointClient) : M Value :=
  let* linkInfos := alloc (OArray []) in
  let* keys := forIn (links this) in
  GetAllLinks_loop this linkInfos keys ;;;
  ret linkInfos.

End Enumeration.

(** The [HalLinkInfo] of the relation [key] whose link is [link]. *)
Definition link_info (link : Obj) (key : string) : Obj :=
  OPlain {[ "href" := obj_prop link "href"; "method" := obj_prop link "method";
            "rel" := VString key ]}.

(** Every link of the table is an object of the store. *)
Definition links_are_objects (h : Heap) (table : gmap string Value) : Prop :=
  forall key v, table !! key = Some v -> exists l o, v = VRef l /\ h !! l = Some o.

(** The link object behind a key of the table. *)
Definition link_cell (h : Heap) (table : gmap string Value) (key : string) : Obj :=
  match table !! key with
  | Some (VRef l) => default (OPlain ∅) (h !! l)
  | _ => OPlain ∅
  end.

(** An enumeration in key order, for the runs. *)
Definition sorted_for_in : gmap string Value -> list string :=
  fun props => (map_to_list props).*1.

(** ** Vocabulary of the navigation statements *)

(** The headers of every request. *)
Definition base_headers : list (string * Value) :=
  [("Accept", VString halcyonJsonMimeType); ("bearer", VNull)].

Definition json_headers : list (string * Value) :=
  base_headers ++ [("Content-Type", VString jsonMimeType)].

(** [m.then(r => processResult(r, fetcher))] on the promise that [m]
    returns. *)
Definition then_processResult (fetcher : Fetcher) (m : M Promise) : M Promise :=
  let* p := m in ret (ThenProcessResult p fetcher).

(** The link table of [this] maps [ref] to the object [link], stored at
    [ll]. *)
Definition relation_is (h : Heap) (this : HalEndpointClient) (ref : string)
    (ll : loc) (link : Obj) : Prop :=
  exists lt table,
    links this = VRef lt /\ h !! lt = Some (OPlain table)
    /\ table !! ref = Some (VRef ll) /\ h !! ll = Some link.

(** The link table of [this] maps [ref] to [null]. *)
Definition relation_is_null (h : Heap) (this : HalEndpointClient) (ref : string) : Prop :=
  exists lt table,
    links this = VRef lt /\ h !! lt = Some (OPlain table) /\ table !! ref = Some VNull.

(** [query] is [undefined] or [null]. *)
Definition no_query (query : JsData) : bool :=
  match query with
  | DUndefined | DNull => true
  | _ => false
  end.

(** The body that [JSON.stringify] gives a request. *)
Definition stringified (JSON_stringify : JsData -> option string) (data : JsData)
    : ReqBody :=
  match JSON_stringify data with
  | Some s => BodyString s
  | None => BodyUndefined
  end.

(** The link that the query composer builds from [link]. *)
Definition query_link (Uri_build : Value -> JsData -> string) (link : Obj)
    (query : JsData) : Obj :=
  OPlain {[ "href" := VString (Uri_build (obj_prop link "href") query);
            "method" := obj_prop link "method" ]}.

(** [v] is [undefined] or [null]. *)
Definition nullish (v : Value) : bool :=
  match v with
  | VUndefined | VNull => true
  | _ => false
  end.

(** The wrapper that [GetAllEmbeds] builds for the key [key]. *)
Definition embed_of (this : HalEndpointClient) (table : gmap string Value)
    (key : string) : Embed :=
  new_Embed key (default VUndefined (table !! key)) (fetcher this).

(** ** The entries that [for-in] visits on a payload

    The own properties of an object, the elements of an array under their
    indices, the code units of a string under theirs; nothing on
    [undefined], [null], a boolean or a number. *)

Fixpoint array_entries (elems : list JsData) (i : nat) : list (string * JsData) :=
  match elems with
  | [] => []
  | value :: rest => (index_key i, value) :: array_entries rest (S i)
  end.

Definition for_in_entries (v : JsData) : list (string * JsData) :=
  match v with
  | DObject _ props => props
  | DArray elems => array_entries elems 0
  | DString s => string_entries s 0
  | _ => []
  end.

(** The fields that one entry contributes under the prefix [parentKey]. *)
Definition entry_fields (parentKey : option string) (entry : string * JsData) : FormData :=
  if constructor_is_Object entry.2
  then jsonToFormData entry.2 None (Some (constructedKey parentKey entry.1))
  else [(constructedKey parentKey entry.1, entry.2)].

(** * [ResultModel]: the adapter of hypermedia results to a model

    The class wraps a [models.Model] of [htmlrapier], which is not part
    of this repository.  The model is given by the calls it receives, in
    order.  The callbacks of the caller are opaque; a shim is the closure
    that [appendData] builds over a callback and the result it appends.
    The iteration protocol is a parameter: [isForEachable] of
    [typeidentifiers], the items that [forEach] visits on such a value,
    and the items that [new iter.Iterable(array).forEach] visits.
    [forEach] is taken to call back on each item in turn and to let an
    exception of the callback through. *)

Module ResultModel.

Inductive Callback := CallbackId (id : nat).

(** [(created, item) => { createdCallback(created, result); }] *)
Inductive CreatedShim := createdShim (createdCallback : Callback) (result : Value).

(** [(item) => variantFinderCallback(result)] *)
Inductive VariantShim := variantShim (variantFinderCallback : Callback) (result : Value).

Inductive ModelCall :=
| ModelClear
| ModelAppendData (data : Value) (created : option CreatedShim)
                  (variant : option VariantShim).

Section Adapter.

Variable isForEachable : Value -> Heap -> bool.
Variable forEach_items : Value -> Heap -> list Value.
Variable Iterable_items : list Value -> list Value.

(** [appendData(result, createdCallback, variantFinderCallback)]: the
    completion, and the calls the model has received. *)
Definition appendData (h : Heap) (result : Value)
    (createdCallback variantFinderCallback : option Callback)
    : Completion unit * list ModelCall :=
  let createdShim := (fun cb => createdShim cb result) <$> createdCallback in
  let variantShim := (fun cb => variantShim cb result) <$> variantFinderCallback in
  match getProp result "data" h with
  | (Normal data, _) => (Normal tt, [ModelAppendData data createdShim variantShim])
  | (Throw e, _) => (Throw e, [])
  | (Unmodelled, _) => (Unmodelled, [])
  end.

(** [items.forEach(result => this.appendData(result, ...))] *)
Fixpoint forEach_appendData (h : Heap) (items : list Value)
    (createdCallback variantFinderCallback : option Callback)
    : Completion unit * list ModelCall :=
  match items with
  | [] => (Normal tt, [])
  | result :: rest =>
      match appendData h result createdCallback variantFinderCallback with
      | (Normal _, calls) =>
          let '(c, calls') :=
            forEach_appendData h rest createdCallback variantFinderCallback in
          (c, calls ++ calls')
      | stopped => stopped
      end
  end.

(** [if (v)] *)
Definition truthy_value (v : Value) : bool :=
  match v with
  | VUndefined | VNull | VBool false | VNumber Z0 | VString EmptyString => false
  | _ => true
  end.

(** [Array.isArray(data)] *)
Definition isArray (h : Heap) (data : Value) : option (list Value) :=
  match data with
  | VRef l => match h !! l with
              | Some (OArray elems) => Some elems
              | _ => None
              end
  | _ => None
  end.

(** [setData(data, createdCallback, variantFinderCallback)] *)
Definition setData (h : Heap) (data : Value)
    (createdCallback variantFinderCallback : option Callback)
    : Completion unit * list ModelCall :=
  let '(c, calls) :=
    if nullish data then (Normal tt, [])
    else
      match isArray h data with
      | Some elems =>
          forEach_appendData h (Iterable_items elems) createdCallback variantFinderCallback
      | None =>
          if isForEachable data h then
            if truthy_value data
            then forEach_appendData h (forEach_items data h)
                                    createdCallback variantFinderCallback
            else (Normal tt, [])
          else appendData h data createdCallback variantFinderCallback
      end in
  (c, ModelClear :: calls).

(** [clear()] *)
Definition clear : Completion unit * list ModelCall := (Normal tt, [ModelClear]).

End Adapter.

(** The call that appending [result] makes on the model. *)
Definition append_call (h : Heap) (createdCallback variantFinderCallback : option Callback)
    (result : Value) : ModelCall :=
  ModelAppendData
    (match getProp result "data" h with
     | (Normal data, _) => data
     | _ => VUndefined
     end)
    ((fun cb => createdShim cb result) <$> createdCallback)
    ((fun cb => variantShim cb result) <$> variantFinderCallback).

(** [result] is an object of the store or a primitive: its [data] can be
    read. *)
Definition readable (h : Heap) (result : Value) : Prop :=
  nullish result = false /\ forall l, result = VRef l -> is_Some (h !! l).

End ResultModel.

(** ** More sample data *)

Definition halcyon_success : Response :=
  mkResponse true 200 "OK" (content_type_only (Some halcyonJsonMimeType)) "{}".

(** A [JSON.parse] that answers every text with a document of one field. *)
Definition JSON_parse_document : string -> M Value :=
  fun _ => alloc (OPlain {[ "title" := VString "root" ]}).

(** The store after [JSON.parse] of the error body, and the error over
    it. *)
Definition error_store : Heap :=
  [ OPlain {[ "name" := VString "required" ]};
    OPlain {[ "message" := VString "bad"; "errors" := VRef 0 ]} ].

Definition sample_error : HalError := mkHalError (VRef 1) 400 (VString "bad").

(** An error body with [errors: null]. *)
Definition null_errors_store : Heap :=
  [ OPlain {[ "message" := VString "bad"; "errors" := VNull ]} ].

Definition null_errors_error : HalError := mkHalError (VRef 0) 400 (VString "bad").

(** A link table with [self: null], and a client over it. *)
Definition null_link_store : Heap := [ OPlain {[ "self" := VNull ]} ].

Definition null_link_client : HalEndpointClient :=
  mkClient VUndefined transport VUndefined (VRef 0).

(** A client over a document with [_links: null]. *)
Definition null_table_client : HalEndpointClient :=
  mkClient (VRef 0) transport VUndefined VNull.

(** A client over a document without envelope. *)
Definition bare_client : HalEndpointClient :=
  mkClient (VRef 0) transport VUndefined VUndefined.

(** Two results, [undefined] and [null] in an array. *)
Definition results_store : Heap :=
  [ OPlain {[ "data" := VString "first" ]};
    OPlain {[ "data" := VString "second" ]};
    OArray [VRef 0; VUndefined; VRef 1; VNull; VRef 0] ].

(** A stand-in for the iteration of [iter.Iterable] over an array, which
    hands over the items that are not [undefined]. *)
Definition sample_Iterable_items : list Value -> list Value := List.filter defined.
(** * Properties *)

(** ** Running the store monad *)

Lemma bind_normal {A B} (m : M A) (k : A -> M B) h a h' :
  m h = (Normal a, h') -> bind m k h = k a h'.
Proof. intros E. unfold bind. now rewrite E. Qed.

Lemma bind_throw {A B} (m : M A) (k : A -> M B) h e h' :
  m h = (Throw e, h') -> bind m k h = (Throw e, h').
Proof. intros E. unfold bind. now rewrite E. Qed.

Lemma getProp_ref l k h o :
  h !! l = Some o -> modelled_prop o k = true ->
  getProp (VRef l) k h = (Normal (obj_prop o k), h).
Proof. intros E Hm. simpl. now rewrite E, Hm. Qed.

(** The names of the documents are read on every object. *)
Lemma modelled_absent o k : absent_from_builtins k = true -> modelled_prop o k = true.
Proof. intros H. destruct o; simpl; [reflexivity | now rewrite H ..]. Qed.

Lemma getProp_name l k h o :
  h !! l = Some o -> absent_from_builtins k = true ->
  getProp (VRef l) k h = (Normal (obj_prop o k), h).
Proof. intros E Hk. apply getProp_ref; [assumption | now apply modelled_absent]. Qed.

(** No name of the documents and no numeral is inherited. *)
Lemma absent_not_inherited k :
  absent_from_builtins k = true -> Object_prototype k = VUndefined.
Proof.
  unfold absent_from_builtins. intros H. apply orb_true_iff in H as [H|H].
  - simpl in H. repeat (apply orb_true_iff in H as [H|H];
                        [apply String.eqb_eq in H as ->; reflexivity|]).
    discriminate.
  - apply andb_true_iff in H as [_ H].
    destruct k as [|c k]; [reflexivity|]. simpl in H.
    apply andb_true_iff in H as [Hc _].
    destruct c as [[] [] [] [] [] [] [] []]; try discriminate Hc; reflexivity.
Qed.

Lemma generic_is_not_unsupported response ct :
  generic_message response <> unsupported_message ct.
Proof. unfold generic_message, unsupported_message. simpl. discriminate. Qed.

Lemma starts_with_nonempty ct mime :
  mime <> "" -> starts_with ct mime = true -> ct <> "".
Proof.
  intros Hm Hs ->. unfold starts_with in Hs.
  destruct mime; [congruence | discriminate].
Qed.

Lemma truthy_header_Some ct : ct <> "" -> truthy_header (Some ct) = true.
Proof.
  intros H. simpl. destruct (String.eqb_spec ct ""); [contradiction | reflexivity].
Qed.

(** ** Response classification *)

Section Classification.

Variable JSON_parse : string -> M Value.

(** What the first version does with a response whose content type is
    neither of the two media types. *)
Lemma parseResult_unmatched response data h :
  content_type_matches response halcyonJsonMimeType = false ->
  (ok response = true \/ content_type_matches response jsonMimeType = false) ->
  parseResult JSON_parse response data h =
    if truthy_header (headers_get response "content-type")
    then (Throw (Error (unsupported_message
                          (default "" (headers_get response "content-type")))), h)
    else (Normal (VRef (length h)), h ++ [empty_envelope]).
Proof.
  unfold content_type_matches, parseResult. intros Hh Hj.
  destruct (headers_get response "content-type") as [ct|]; [|reflexivity].
  destruct (truthy_header (Some ct)); [|reflexivity].
  simpl. rewrite Hh. simpl.
  destruct Hj as [-> | ->]; [|reflexivity].
  now rewrite andb_false_r.
Qed.


Lemma empty_envelope_prop k :
  Object_prototype k = VUndefined -> obj_prop empty_envelope k = VUndefined.
Proof.
  intros Hk. unfold empty_envelope, obj_prop.
  destruct (decide (k = "_links")) as [-> | H1]; [reflexivity|].
  destruct (decide (k = "_embedded")) as [-> | H2]; [reflexivity|].
  rewrite lookup_insert_ne by congruence.
  rewrite lookup_singleton_ne by congruence. exact Hk.
Qed.

Lemma lookup_fresh (h : Heap) o : (h ++ [o]) !! length h = Some o.
Proof. rewrite lookup_app_r by lia. now rewrite Nat.sub_diag. Qed.

(** C3, as amended.  A successful response whose content type does not
    start with the hypermedia media type is refused with the unsupported
    response type error, whatever the body and also for the generic JSON
    type, provided the header is present and not empty; without the
    header, [parseResult] does not fail and hands back a made-up empty
    envelope. *)
Theorem parseResult_success_other_content_type response data h :
  ok response = true ->
  content_type_matches response halcyonJsonMimeType = false ->
  parseResult JSON_parse response data h =
    if truthy_header (headers_get response "content-type")
    then (Throw (Error (unsupported_message
                          (default "" (headers_get response "content-type")))), h)
    else (Normal (VRef (length h)), h ++ [empty_envelope]).
Proof.
  intros Hok Hh. apply parseResult_unmatched; auto.
Qed.

(** C1, as amended.  For a failed response whose content type is neither
    of the two media types: the second version of the pipeline rejects
    with the generic server error (status code and status text) when the
    header is present, and that error is never the unsupported response
    type error; the first version rejects with the unsupported response
    type error in that case, and with the generic server error only when
    the header is missing or empty. *)
Theorem processResult_failed_other_content_type response fetcher h :
  ok response = false ->
  content_type_matches response halcyonJsonMimeType = false ->
  content_type_matches response jsonMimeType = false ->
  processResult JSON_parse response fetcher h =
    (if truthy_header (headers_get response "content-type")
     then (Throw (Error (unsupported_message
                           (default "" (headers_get response "content-type")))), h)
     else (Throw (Error (generic_message response)), h ++ [empty_envelope]))
  /\ SecondVersion.processResult JSON_parse response fetcher h =
       (Throw (Error (if truthy_header (headers_get response "content-type")
                      then generic_message response
                      else missing_content_type)), h)
  /\ (forall ct, generic_message response <> unsupported_message ct).
Proof.
  intros Hok Hh Hj. split; [|split; [|intros ct; apply generic_is_not_unsupported]].
  - unfold processResult, bind.
    rewrite parseResult_unmatched by auto.
    destruct (truthy_header _); [reflexivity|].
    rewrite Hok. simpl. rewrite lookup_fresh.
    now rewrite empty_envelope_prop by reflexivity.
  - unfold SecondVersion.processResult, SecondVersion.parseResult, bind.
    unfold content_type_matches in Hh, Hj.
    destruct (headers_get response "content-type") as [ct|]; [|reflexivity].
    destruct (truthy_header (Some ct)); [|reflexivity].
    simpl. rewrite Hh, Hj, Hok. reflexivity.
Qed.

(** The null document: an empty body under an accepted content type. *)
Lemma parseResult_empty_body response h :
  content_type_matches response halcyonJsonMimeType = true
  \/ (content_type_matches response jsonMimeType = true /\ ok response = false) ->
  parseResult JSON_parse response "" h = (Normal VNull, h).
Proof.
  unfold content_type_matches, parseResult. intros H.
  destruct (headers_get response "content-type") as [ct|];
    [|destruct H as [H | [H _]]; discriminate].
  assert (Hne : ct <> "").
  { destruct H as [H | [H _]]; eapply starts_with_nonempty; eauto; discriminate. }
  rewrite truthy_header_Some by assumption. simpl.
  destruct H as [-> | [-> ->]]; [reflexivity|].
  now rewrite orb_true_r.
Qed.

(** C10.  A successful response of the hypermedia media type with an empty
    body parses to the null document without error; the constructor then
    reads [_embedded] of [null], so [processResult], and with it the
    promise of [Load], is rejected with a [TypeError] and no client is
    built. *)
Theorem processResult_empty_success response fetcher fetcher' req h :
  ok response = true ->
  content_type_matches response halcyonJsonMimeType = true ->
  text response = "" ->
  parseResult JSON_parse response (text response) h = (Normal VNull, h)
  /\ new_HalEndpointClient VNull fetcher h = (Throw TypeError, h)
  /\ processResult JSON_parse response fetcher h = (Throw TypeError, h)
  /\ settle JSON_parse (ThenProcessResult (Fetch fetcher' req) fetcher) response h
     = (Throw TypeError, h).
Proof.
  intros Hok Hh Ht.
  assert (Hp : parseResult JSON_parse response (text response) h = (Normal VNull, h)).
  { rewrite Ht. apply parseResult_empty_body. now left. }
  assert (Hr : processResult JSON_parse response fetcher h = (Throw TypeError, h)).
  { unfold processResult. rewrite (bind_normal _ _ _ _ _ Hp). now rewrite Hok. }
  split; [assumption|]. split; [reflexivity|]. split; [assumption|].
  simpl. unfold bind at 1. simpl. now rewrite (bind_throw _ _ _ _ _ Hr).
Qed.

(** A failed response whose body parsed to a value other than [null]:
    a [HalError] when the value has a [message], the generic server error
    otherwise. *)
Lemma processResult_failed_parsed response fetcher h l o h' :
  ok response = false ->
  parseResult JSON_parse response (text response) h = (Normal (VRef l), h') ->
  h' !! l = Some o ->
  processResult JSON_parse response fetcher h =
    if defined (obj_prop o "message")
    then (Throw (ThrownHalError
                   (mkHalError (VRef l) (status response) (obj_prop o "message"))), h')
    else (Throw (Error (generic_message response)), h').
Proof.
  intros Hok Hp Hl. unfold processResult.
  rewrite (bind_normal _ _ _ _ _ Hp), Hok.
  rewrite (bind_normal _ _ _ _ _ (getProp_name _ "message" _ _ Hl eq_refl)).
  destruct (defined _); [|reflexivity].
  unfold new_HalError.
  rewrite (bind_normal _ _ _ _ _
             (bind_normal _ _ _ _ _ (getProp_name _ "message" _ _ Hl eq_refl))).
  reflexivity.
Qed.

(** C4 at the input where the code departs from it: a failed response of
    an accepted content type with an empty body.  The body parses to the
    null document, reading [message] of [null] throws, and the promise is
    rejected with a [TypeError], neither a [HalError] nor the generic
    server error. *)
Theorem processResult_failed_empty_body fetcher h :
  let response :=
    mkResponse false 500 "Internal Server Error"
               (content_type_only (Some "application/json")) "" in
  parseResult JSON_parse response (text response) h = (Normal VNull, h)
  /\ processResult JSON_parse response fetcher h = (Throw TypeError, h).
Proof.
  intros response.
  assert (Hp : parseResult JSON_parse response (text response) h = (Normal VNull, h)).
  { apply parseResult_empty_body. right. split; reflexivity. }
  split; [assumption|].
  unfold processResult. now rewrite (bind_normal _ _ _ _ _ Hp).
Qed.

End Classification.

(** ** Construction *)

Lemma deleteProp_plain l k props (h : Heap) :
  h !! l = Some (OPlain props) ->
  deleteProp (VRef l) k h = (Normal tt, <[l := OPlain (delete k props)]> h).
Proof. intros E. simpl. now rewrite E. Qed.

Lemma new_HalEndpointClient_plain l props fetcher (h : Heap) :
  h !! l = Some (OPlain props) ->
  new_HalEndpointClient (VRef l) fetcher h =
    (Normal (VRef (length h)),
     <[l := OPlain (delete "_links" (delete "_embedded" props))]> h
       ++ [OClient (mkClient (VRef l) fetcher
                             (default VUndefined (props !! "_embedded"))
                             (default VUndefined (props !! "_links")))]).
Proof.
  intros Hl. assert (Hlt : l < length h) by (eapply lookup_lt_Some; eauto).
  assert (Hl' : <[l := OPlain (delete "_embedded" props)]> h !! l
                = Some (OPlain (delete "_embedded" props)))
    by now apply list_lookup_insert_eq.
  unfold new_HalEndpointClient.
  rewrite (bind_normal _ _ _ _ _ (getProp_ref _ _ _ _ Hl eq_refl)).
  rewrite (bind_normal _ _ _ _ _ (deleteProp_plain _ _ _ _ Hl)).
  rewrite (bind_normal _ _ _ _ _ (getProp_ref _ _ _ _ Hl' eq_refl)).
  rewrite (bind_normal _ _ _ _ _ (deleteProp_plain _ _ _ _ Hl')).
  rewrite list_insert_insert_eq. unfold alloc. rewrite length_insert. simpl.
  now rewrite lookup_delete_ne by discriminate.
Qed.

(** A document that is not an object of the store: [null] and [undefined]
    cannot be read, a primitive has no envelope to remove. *)
Lemma new_HalEndpointClient_null fetcher h :
  new_HalEndpointClient VNull fetcher h = (Throw TypeError, h)
  /\ new_HalEndpointClient VUndefined fetcher h = (Throw TypeError, h).
Proof. split; reflexivity. Qed.

(** C6.  Building a client over a document of the store removes
    [_embedded] and [_links] from that very object and changes nothing
    else: [GetData] is the reference it was given, every other key keeps
    its value, every other object is untouched, and the two keys are gone
    from the payload. *)
Theorem GetData_is_the_stripped_document l props fetcher (h : Heap) :
  h !! l = Some (OPlain props) ->
  exists c h',
    new_HalEndpointClient (VRef l) fetcher h = (Normal (VRef (length h)), h')
    /\ h' !! length h = Some (OClient c)
    /\ GetData c = VRef l
    /\ embeds c = default VUndefined (props !! "_embedded")
    /\ links c = default VUndefined (props !! "_links")
    /\ (exists payload,
          h' !! l = Some (OPlain payload)
          /\ payload !! "_links" = None
          /\ payload !! "_embedded" = None
          /\ forall k, k <> "_links" -> k <> "_embedded" -> payload !! k = props !! k)
    /\ (forall l', l' <> l -> l' < length h -> h' !! l' = h !! l').
Proof.
  intros Hl. assert (Hlt : l < length h) by (eapply lookup_lt_Some; eauto).
  eexists _, _. split; [apply (new_HalEndpointClient_plain _ _ _ _ Hl)|].
  split. { rewrite lookup_app_r; rewrite length_insert; [|lia]. now rewrite Nat.sub_diag. }
  split; [reflexivity|]. split; [reflexivity|]. split; [reflexivity|].
  split.
  - eexists. split.
    { rewrite lookup_app_l by (rewrite length_insert; lia).
      now apply list_lookup_insert_eq. }
    split; [apply lookup_delete_eq|].
    split. { rewrite lookup_delete_ne by discriminate. apply lookup_delete_eq. }
    intros k H1 H2. now rewrite !lookup_delete_ne by congruence.
  - intros l' Hne Hl'.
    rewrite lookup_app_l by (rewrite length_insert; lia).
    now apply list_lookup_insert_ne.
Qed.

(** ** Embedded collections *)

Lemma GetEmbed_absent_name this l table name h :
  embeds this = VRef l -> h !! l = Some (OPlain table) -> table !! name = None ->
  Object_prototype name = VUndefined ->
  GetEmbed this name h = (Normal (new_Embed name VUndefined (fetcher this)), h).
Proof.
  intros He Hl Hn Hp. unfold GetEmbed, bind. rewrite He. simpl. rewrite Hl. simpl.
  now rewrite Hn, Hp.
Qed.

(** C8 at the inputs where the code departs from it.  On a client built
    over a document without [_embedded], [GetEmbed] reads a property of
    [undefined] and throws.  For a name that the embedded map lacks it
    builds a wrapper whose list is [undefined]; on such a wrapper
    [GetAllClients] reads [length] of [undefined] and throws, after it has
    made its result array. *)
Theorem GetEmbed_without_embedded_map d f l name h :
  GetEmbed (mkClient d f VUndefined l) name h = (Throw TypeError, h)
  /\ GetEmbed sample_client "missing" sample_store
     = (Normal (new_Embed "missing" VUndefined transport), sample_store)
  /\ GetAllClients (new_Embed name VUndefined f) h = (Throw TypeError, h ++ [OArray []]).
Proof. split; [reflexivity|]. split; reflexivity. Qed.

(** [HasEmbed] has the guard that [GetEmbed] lacks. *)
Lemma HasEmbed_without_embedded_map d f l name h :
  HasEmbed (mkClient d f VUndefined l) name h = (Normal false, h).
Proof. reflexivity. Qed.

(** ** Links *)

Lemma HasLink_NoRelation this ref h :
  NoRelation h this ref -> HasLink this ref h = (Normal false, h).
Proof.
  intros [Hu | l table Hl Hh Ht Hp]; unfold HasLink; rewrite ?Hu, ?Hl; simpl.
  - reflexivity.
  - unfold bind. simpl. rewrite Hh. simpl. now rewrite Ht, Hp.
Qed.

(** A link table that is [null] is not the absent table of the data
    model: [HasLink] reads a property of it. *)
Lemma HasLink_null_table d f e ref h :
  HasLink (mkClient d f e VNull) ref h = (Throw TypeError, h).
Proof. reflexivity. Qed.

Section Navigation.

Variable JSON_stringify : JsData -> option string.
Variable Uri_build : Value -> JsData -> string.

(** X25.  For a relation that a lookup in the link table of a client does
    not find, because the client has no link table or because the table
    is an object without a property of that name, own or inherited from
    [Object.prototype], [HasLink] answers [false] without throwing, and
    each of the twelve navigation operations throws the "Cannot find ref"
    error itself: it hands out no promise, and the store is as before. *)
Theorem unknown_relation_throws this ref (query data : JsData) h :
  NoRelation h this ref ->
  HasLink this ref h = (Normal false, h)
  /\ LoadLink this ref h = (Throw (Error (cannot_find_ref ref)), h)
  /\ LoadLinkWithQuery Uri_build this ref query h
     = (Throw (Error (cannot_find_ref ref)), h)
  /\ LoadLinkWithBody JSON_stringify this ref data h
     = (Throw (Error (cannot_find_ref ref)), h)
  /\ LoadLinkWithQueryAndBody JSON_stringify Uri_build this ref query data h
     = (Throw (Error (cannot_find_ref ref)), h)
  /\ LoadLinkWithForm this ref data h = (Throw (Error (cannot_find_ref ref)), h)
  /\ LoadLinkWithQueryAndForm Uri_build this ref query data h
     = (Throw (Error (cannot_find_ref ref)), h)
  /\ LoadRawLink this ref h = (Throw (Error (cannot_find_ref ref)), h)
  /\ LoadRawLinkWithQuery Uri_build this ref query h
     = (Throw (Error (cannot_find_ref ref)), h)
  /\ LoadRawLinkWithBody JSON_stringify this ref data h
     = (Throw (Error (cannot_find_ref ref)), h)
  /\ LoadRawLinkWithQueryAndBody JSON_stringify Uri_build this ref query data h
     = (Throw (Error (cannot_find_ref ref)), h)
  /\ LoadRawLinkWithForm this ref data h = (Throw (Error (cannot_find_ref ref)), h)
  /\ LoadRawLinkWithQueryAndForm Uri_build this ref query data h
     = (Throw (Error (cannot_find_ref ref)), h).
Proof.
  intros Hno. pose proof (HasLink_NoRelation _ _ _ Hno) as Hhas.
  split; [assumption|].
  unfold LoadLink, LoadLinkWithQuery, LoadLinkWithBody, LoadLinkWithQueryAndBody,
    LoadLinkWithForm, LoadLinkWithQueryAndForm, LoadRawLink, LoadRawLinkWithQuery,
    LoadRawLinkWithBody, LoadRawLinkWithQueryAndBody, LoadRawLinkWithForm,
    LoadRawLinkWithQueryAndForm.
  rewrite !(bind_normal _ _ _ _ _ Hhas).
  repeat (split; [reflexivity|]). reflexivity.
Qed.

(** With a query object the composer makes a new link: a fresh object
    whose [href] is rebuilt and whose [method] is the one of the link. *)
Lemma GetQueryLink_with_query l o query (h : Heap) :
  h !! l = Some o -> query <> DUndefined -> query <> DNull ->
  GetQueryLink Uri_build (VRef l) query h =
    (Normal (VRef (length h)),
     h ++ [OPlain {[ "href" := VString (Uri_build (obj_prop o "href") query);
                     "method" := obj_prop o "method" ]}])
  /\ VRef (length h) <> VRef l.
Proof.
  intros Hl H1 H2. assert (Hlt : l < length h) by (eapply lookup_lt_Some; eauto).
  split; [|intros [= E]; lia].
  destruct query; try congruence; unfold GetQueryLink;
    rewrite (bind_normal _ _ _ _ _ (getProp_name _ "href" _ _ Hl eq_refl));
    rewrite (bind_normal _ _ _ _ _ (getProp_name _ "method" _ _ Hl eq_refl)); reflexivity.
Qed.

(** C9.  Without a query object, [undefined] or [null], the query composer
    returns the link it was given: the same reference, no new object, the
    store as it was.  Only with a query object does it rewrite the [href]:
    it then returns a new object, with the rebuilt [href] and the [method]
    of the link, and leaves the link as it was. *)
Theorem GetQueryLink_without_query link query (h : Heap) :
  GetQueryLink Uri_build link DUndefined h = (Normal link, h)
  /\ GetQueryLink Uri_build link DNull h = (Normal link, h)
  /\ (forall l o,
        link = VRef l -> h !! l = Some o ->
        query <> DUndefined -> query <> DNull ->
        exists h' : Heap,
          GetQueryLink Uri_build link query h = (Normal (VRef (length h)), h')
          /\ VRef (length h) <> link
          /\ h' !! l = Some o
          /\ getProp (VRef (length h)) "href" h'
             = (Normal (VString (Uri_build (obj_prop o "href") query)), h')
          /\ getProp (VRef (length h)) "method" h'
             = (Normal (obj_prop o "method"), h')).
Proof.
  split; [reflexivity|]. split; [reflexivity|].
  intros l o -> Hl H1 H2.
  assert (Hlt : l < length h) by (eapply lookup_lt_Some; eauto).
  destruct (GetQueryLink_with_query l o query h Hl H1 H2) as [Hrun Hnew].
  eexists. split; [exact Hrun|]. split; [exact Hnew|].
  split; [now rewrite lookup_app_l|].
  split; (rewrite (getProp_ref _ _ _ _ (lookup_fresh h _)) by reflexivity; reflexivity).
Qed.

End Navigation.

(** ** The multipart encoder *)

(** The loop of [jsonToFormData] over an object, turn by turn. *)
Lemma jsonToFormData_object ctor props inFormData parentKey :
  jsonToFormData (DObject ctor props) inFormData parentKey =
    fold_left (jsonToFormData_turn parentKey) props (default [] inFormData).
Proof.
  simpl. generalize (default [] inFormData) as form_data.
  induction props as [|[key value] rest IH]; intros form_data; [reflexivity|].
  simpl. rewrite IH. reflexivity.
Qed.

Lemma plain_object_truthy v :
  constructor_is_Object v = true -> truthy v = true.
Proof. destruct v; simpl; congruence. Qed.

Lemma constructedKey_named p key :
  p <> "" -> constructedKey (Some p) key = p +:+ "." +:+ key.
Proof.
  intros H. unfold constructedKey. simpl.
  destruct (String.eqb_spec p ""); [contradiction | reflexivity].
Qed.

Lemma append_nonempty p s : p <> "" -> p +:+ s <> "".
Proof. destruct p; [congruence | discriminate]. Qed.




(** The example of the specification: [a.b], [a.c] and [d], the array in
    one piece. *)
Example jsonToFormData_nested_example :
  jsonToFormData nested_example None None =
    [("a.b", DNumber 1); ("a.c", DString "s"); ("d", DArray [DNumber 1; DNumber 2])].
Proof. reflexivity. Qed.

(** Values that are not plain objects are never descended into. *)
Example opaque_values_are_not_plain :
  constructor_is_Object (DArray [DObject ObjectCtor [("x", DNumber 1)]]) = false
  /\ constructor_is_Object (DObject (OtherCtor "Date") []) = false
  /\ constructor_is_Object (DObject (OtherCtor "Blob") [("size", DNumber 3)]) = false
  /\ constructor_is_Object (DObject ObjectCtor [("constructor", DNumber 1)]) = false.
Proof. repeat split. Qed.

(** ** [GetAllClients] *)

Lemma strip_idemp props : strip (strip props) = strip props.
Proof.
  unfold strip. apply map_eq. intros k.
  destruct (decide (k = "_links")) as [->|H1]; [by simplify_map_eq|].
  destruct (decide (k = "_embedded")) as [->|H2]; by simplify_map_eq.
Qed.

Lemma strip_cell_idemp o : strip_cell (strip_cell o) = strip_cell o.
Proof. destruct o; simpl; try reflexivity. now rewrite strip_idemp. Qed.

Lemma new_HalEndpointClient_document l props f (h : Heap) :
  h !! l = Some (OPlain props) ->
  new_HalEndpointClient (VRef l) f h =
    (Normal (VRef (length h)),
     <[l := OPlain (strip props)]> h ++ [OClient (client_over (VRef l) f props)]).
Proof. apply new_HalEndpointClient_plain. Qed.

Lemma getProp_array_length a docs (h : Heap) :
  h !! a = Some (OArray docs) ->
  getProp (VRef a) "length" h = (Normal (VNumber (Z.of_nat (length docs))), h).
Proof. intros E. now rewrite (getProp_ref _ "length" _ _ E eq_refl). Qed.

Lemma getIndex_array a docs i (h : Heap) :
  h !! a = Some (OArray docs) ->
  getIndex (VRef a) i h = (Normal (default VUndefined (docs !! i)), h).
Proof. intros E. simpl. now rewrite E. Qed.

Lemma push_array r cs x (h : Heap) :
  h !! r = Some (OArray cs) ->
  push (VRef r) x h = (Normal tt, <[r := OArray (cs ++ [x])]> h).
Proof. intros E. simpl. now rewrite E. Qed.

Lemma GetAllClients_loop_turn fuel e embeddedClients i :
  GetAllClients_loop fuel e embeddedClients i =
    (let* len := getProp (embed_embeds e) "length" in
     let* below := lessThan i len in
     if below then
       match fuel with
       | O => unmodelled
       | S fuel' =>
           let* doc := getIndex (embed_embeds e) i in
           let* embed := new_HalEndpointClient doc (embed_fetcher e) in
           push embeddedClients embed ;;;
           GetAllClients_loop fuel' e embeddedClients (S i)
       end
     else ret tt).
Proof. destruct fuel; reflexivity. Qed.

Section Loop.

Variable e : Embed.
Variables a r : loc.
Variable docs : list Value.
Hypothesis embeds_of_e : embed_embeds e = VRef a.
Hypothesis a_not_r : a <> r.

Lemma GetAllClients_loop_spec rest :
  forall i fuel cs (h : Heap),
    h !! a = Some (OArray docs) ->
    h !! r = Some (OArray cs) ->
    drop i docs = rest ->
    length rest <= fuel ->
    Forall (is_document h) rest ->
    exists h' : Heap,
      GetAllClients_loop fuel e (VRef r) i h = (Normal tt, h')
      /\ length h' = length h + length rest
      /\ h' !! r = Some (OArray (cs ++ (VRef <$> seq (length h) (length rest))))
      /\ (forall l, l < length h -> l <> r ->
            h' !! l = (if bool_decide (VRef l ∈ rest) then strip_cell else id) <$> h !! l)
      /\ (forall j l props,
            rest !! j = Some (VRef l) -> h !! l = Some (OPlain props) ->
            h' !! (length h + j) =
              Some (OClient (client_over (VRef l) (embed_fetcher e)
                               (if bool_decide (VRef l ∈ take j rest)
                                then strip props else props)))).
Proof.
  induction rest as [|d rest' IH]; intros i fuel cs h Ha Hr Hdrop Hfuel Hdocs.
  - (* the bound is reached *)
    assert (Hlen : length docs <= i).
    { apply (f_equal length) in Hdrop. rewrite length_drop in Hdrop. simpl in Hdrop. lia. }
    exists h. split.
    { rewrite GetAllClients_loop_turn, embeds_of_e.
      rewrite (bind_normal _ _ _ _ _ (getProp_array_length _ _ _ Ha)).
      unfold bind, lessThan, ret.
      destruct (Z.ltb_spec (Z.of_nat i) (Z.of_nat (length docs))); [lia|reflexivity]. }
    split; [simpl; lia|].
    split; [simpl; now rewrite app_nil_r|].
    split.
    + intros l Hl Hne. rewrite bool_decide_eq_false_2 by apply not_elem_of_nil.
      now destruct (h !! l).
    + intros j l props Hj. now rewrite lookup_nil in Hj.
  - (* one more turn *)
    assert (Hi : docs !! i = Some d).
    { rewrite <- (Nat.add_0_r i), <- lookup_drop, Hdrop. reflexivity. }
    assert (Hrest' : drop (S i) docs = rest').
    { rewrite (drop_S _ _ _ Hi) in Hdrop. congruence. }
    assert (Hlt : i < length docs) by (eapply lookup_lt_Some; eauto).
    destruct fuel as [|fuel]; [simpl in Hfuel; lia|].
    apply Forall_cons in Hdocs as [(l & props & -> & Hl) Hdocs].
    assert (Hl_lt : l < length h) by (eapply lookup_lt_Some; eauto).
    assert (Hr_lt : r < length h) by (eapply lookup_lt_Some; eauto).
    assert (Ha_lt : a < length h) by (eapply lookup_lt_Some; eauto).
    assert (Hlr : l <> r) by (intros ->; congruence).
    assert (Hla : l <> a) by (intros ->; congruence).
    set (h1 := <[l := OPlain (strip props)]> h ++ [OClient (client_over (VRef l) (embed_fetcher e) props)]).
    set (h2 := <[r := OArray (cs ++ [VRef (length h)])]> h1).
    assert (Hlen1 : length h1 = S (length h)).
    { unfold h1. rewrite length_app, length_insert. simpl. lia. }
    assert (Hlen2 : length h2 = S (length h)).
    { unfold h2. now rewrite length_insert. }
    assert (Hh1 : forall k, k < length h -> h1 !! k = if decide (k = l) then Some (OPlain (strip props)) else h !! k).
    { intros k Hk. unfold h1. rewrite lookup_app_l by (rewrite length_insert; lia).
      destruct (decide (k = l)) as [->|Hne].
      - now apply list_lookup_insert_eq.
      - now apply list_lookup_insert_ne. }
    assert (Hh2 : forall k, k <> r -> h2 !! k = h1 !! k).
    { intros k Hk. unfold h2. now apply list_lookup_insert_ne. }
    assert (Hr1 : h1 !! r = Some (OArray cs)).
    { rewrite Hh1 by assumption. now rewrite decide_False by congruence. }
    assert (Hr2 : h2 !! r = Some (OArray (cs ++ [VRef (length h)]))).
    { unfold h2. apply list_lookup_insert_eq. lia. }
    assert (Ha2 : h2 !! a = Some (OArray docs)).
    { rewrite Hh2, Hh1 by assumption. now rewrite decide_False by congruence. }
    assert (Hdocs2 : Forall (is_document h2) rest').
    { eapply Forall_impl; [exact Hdocs|]. intros d' (l' & props' & -> & Hl').
      assert (l' < length h) by (eapply lookup_lt_Some; eauto).
      assert (l' <> r) by (intros ->; congruence).
      destruct (decide (l' = l)) as [->|Hne].
      - exists l, (strip props). split; [reflexivity|].
        rewrite Hh2, Hh1 by assumption. now rewrite decide_True.
      - exists l', props'. split; [reflexivity|].
        rewrite Hh2, Hh1 by assumption. now rewrite decide_False. }
    destruct (IH (S i) fuel (cs ++ [VRef (length h)]) h2 Ha2 Hr2 Hrest'
                 ltac:(simpl in Hfuel; lia) Hdocs2)
      as (h' & Hrun & Hlen' & Hr' & Hold & Hnew).
    exists h'. split.
    { rewrite GetAllClients_loop_turn, embeds_of_e.
      rewrite (bind_normal _ _ _ _ _ (getProp_array_length _ _ _ Ha)).
      assert (Hbelow : lessThan i (VNumber (Z.of_nat (length docs))) h = (Normal true, h)).
      { unfold lessThan, ret.
        destruct (Z.ltb_spec (Z.of_nat i) (Z.of_nat (length docs))); [reflexivity|lia]. }
      rewrite (bind_normal _ _ _ _ _ Hbelow).
      rewrite (bind_normal _ _ _ _ _ (getIndex_array _ _ _ _ Ha)).
      rewrite Hi. simpl default.
      rewrite (bind_normal _ _ _ _ _ (new_HalEndpointClient_document _ _ _ _ Hl)).
      fold h1. rewrite (bind_normal _ _ _ _ _ (push_array _ _ _ _ Hr1)).
      fold h2. exact Hrun. }
    split; [rewrite Hlen', Hlen2; simpl; lia|].
    split.
    { rewrite Hr', Hlen2. simpl. now rewrite <- app_assoc. }
    split.
    + intros k Hk Hkr.
      rewrite Hold by (rewrite ?Hlen2; lia || assumption).
      rewrite Hh2, Hh1 by assumption.
      destruct (decide (k = l)) as [->|Hne].
      * rewrite Hl. rewrite (bool_decide_eq_true_2 (VRef l ∈ VRef l :: rest')) by apply list_elem_of_here.
        simpl. destruct (bool_decide _); simpl; [now rewrite strip_idemp|reflexivity].
      * assert (Heq : bool_decide (VRef k ∈ VRef l :: rest') = bool_decide (VRef k ∈ rest')).
        { apply bool_decide_ext. rewrite elem_of_cons. split; [|tauto].
          intros [[= ?]|?]; [contradiction|assumption]. }
        now rewrite Heq.
    + intros j k props' Hj Hk.
      destruct j as [|j].
      * injection Hj as ->. rewrite Hk in Hl. injection Hl as ->.
        rewrite Nat.add_0_r. rewrite Hold by (rewrite ?Hlen2; lia).
        rewrite Hh2 by lia. unfold h1.
        rewrite lookup_app_r by (rewrite length_insert; lia).
        rewrite length_insert, Nat.sub_diag. simpl.
        now destruct (bool_decide _).
      * simpl in Hj.
        assert (k < length h) by (eapply lookup_lt_Some; eauto).
        assert (k <> r) by (intros ->; congruence).
        destruct (decide (k = l)) as [->|Hne].
        -- rewrite Hk in Hl. injection Hl as ->.
           assert (Hk2 : h2 !! l = Some (OPlain (strip props))).
           { rewrite Hh2, Hh1 by assumption. now rewrite decide_True. }
           specialize (Hnew j l (strip props) Hj Hk2).
           rewrite Hlen2 in Hnew. replace (length h + S j) with (S (length h) + j) by lia.
           rewrite Hnew. simpl take.
           rewrite (bool_decide_eq_true_2 (VRef l ∈ VRef l :: take j rest')) by apply list_elem_of_here.
           destruct (bool_decide _); [now rewrite strip_idemp|reflexivity].
        -- assert (Hk2 : h2 !! k = Some (OPlain props')).
           { rewrite Hh2, Hh1 by assumption. now rewrite decide_False. }
           specialize (Hnew j k props' Hj Hk2).
           rewrite Hlen2 in Hnew. replace (length h + S j) with (S (length h) + j) by lia.
           rewrite Hnew. simpl take.
           assert (Heq : bool_decide (VRef k ∈ VRef l :: take j rest')
                         = bool_decide (VRef k ∈ take j rest')).
           { apply bool_decide_ext. rewrite elem_of_cons. split; [|tauto].
             intros [[= ?]|?]; [contradiction|assumption]. }
           now rewrite Heq.
Qed.

End Loop.

Lemma strip_has_no_envelope props :
  strip props !! "_links" = None /\ strip props !! "_embedded" = None.
Proof.
  unfold strip. split; [apply lookup_delete_eq|].
  rewrite lookup_delete_ne by discriminate. apply lookup_delete_eq.
Qed.

Lemma client_over_stripped d f props :
  client_over d f (strip props) = mkClient d f VUndefined VUndefined.
Proof.
  unfold client_over. destruct (strip_has_no_envelope props) as [-> ->]. reflexivity.
Qed.

Lemma is_document_app h o d : is_document h d -> is_document (h ++ [o]) d.
Proof.
  intros (l & props & -> & Hl). exists l, props. split; [reflexivity|].
  rewrite lookup_app_l; [assumption | eapply lookup_lt_Some; eauto].
Qed.

(** One call of [GetAllClients] over an array of documents: the result
    array is new, the clients are new and follow it in the store, every
    document of the array has lost its envelope, and nothing else has
    changed. *)
Lemma GetAllClients_spec e a docs (h : Heap) :
  embed_embeds e = VRef a ->
  h !! a = Some (OArray docs) ->
  Forall (is_document h) docs ->
  exists h' : Heap,
    GetAllClients e h = (Normal (VRef (length h)), h')
    /\ length h' = S (length h) + length docs
    /\ h' !! length h = Some (OArray (VRef <$> seq (S (length h)) (length docs)))
    /\ (forall l, l < length h ->
          h' !! l = (if bool_decide (VRef l ∈ docs) then strip_cell else id) <$> h !! l)
    /\ (forall j l props,
          docs !! j = Some (VRef l) -> h !! l = Some (OPlain props) ->
          h' !! (S (length h) + j) =
            Some (OClient (client_over (VRef l) (embed_fetcher e)
                             (if bool_decide (VRef l ∈ take j docs)
                              then strip props else props)))).
Proof.
  intros He Ha Hdocs.
  assert (Ha_lt : a < length h) by (eapply lookup_lt_Some; eauto).
  set (h0 := h ++ [OArray []]).
  assert (Hlen0 : length h0 = S (length h)).
  { unfold h0. rewrite length_app. simpl. lia. }
  assert (Hh0 : forall l, l < length h -> h0 !! l = h !! l).
  { intros l Hl. unfold h0. now rewrite lookup_app_l. }
  assert (Ha0 : h0 !! a = Some (OArray docs)) by now rewrite Hh0.
  assert (Hr0 : h0 !! length h = Some (OArray [])) by apply lookup_fresh.
  assert (Hdocs0 : Forall (is_document h0) docs).
  { eapply Forall_impl; [exact Hdocs|]. intros d. apply is_document_app. }
  destruct (GetAllClients_loop_spec e a (length h) docs He ltac:(lia) docs 0
              (length docs) [] h0 Ha0 Hr0 eq_refl (le_n _) Hdocs0)
    as (h' & Hrun & Hlen' & Hr' & Hold & Hnew).
  exists h'. split.
  { unfold GetAllClients, alloc. unfold bind at 1. fold h0. rewrite He.
    rewrite (bind_normal _ _ _ _ _ (getProp_array_length _ _ _ Ha0)).
    simpl loop_turns. rewrite Nat2Z.id.
    now rewrite (bind_normal _ _ _ _ _ Hrun). }
  split; [lia|].
  split; [rewrite Hr', Hlen0; reflexivity|].
  split.
  - intros l Hl. rewrite Hold by lia. now rewrite Hh0.
  - intros j l props Hj Hl. rewrite <- Hlen0. apply Hnew; [assumption|].
    rewrite Hh0; [assumption | eapply lookup_lt_Some; eauto].
Qed.

(** C2, as amended.  Two calls of [GetAllClients] on an embed collection
    over [n] documents give two different arrays of length [n]; each holds
    one new client per document, in the order of the documents, and the
    two clients of a document share it as their data.  The clients of the
    second call have neither link table nor embedded map, because the
    first call removed [_links] and [_embedded] from the documents; the
    clients of the first call have those of the document when it occurs
    once in the sequence. *)
Theorem GetAllClients_twice e a docs (h : Heap) :
  embed_embeds e = VRef a ->
  h !! a = Some (OArray docs) ->
  Forall (is_document h) docs ->
  exists (h1 h2 : Heap) (first second : list Value),
    GetAllClients e h = (Normal (VRef (length h)), h1)
    /\ GetAllClients e h1 = (Normal (VRef (length h1)), h2)
    /\ length h <> length h1
    /\ h2 !! length h = Some (OArray first)
    /\ h2 !! length h1 = Some (OArray second)
    /\ length first = length docs
    /\ length second = length docs
    /\ forall i d, docs !! i = Some d ->
         exists c1 c2,
           first !! i = Some (VRef (S (length h) + i))
           /\ second !! i = Some (VRef (S (length h1) + i))
           /\ S (length h) + i < length h1
           /\ h2 !! (S (length h) + i) = Some (OClient c1)
           /\ h2 !! (S (length h1) + i) = Some (OClient c2)
           /\ GetData c1 = d /\ GetData c2 = d
           /\ embeds c2 = VUndefined /\ links c2 = VUndefined
           /\ (d ∉ take i docs ->
               forall l props, d = VRef l -> h !! l = Some (OPlain props) ->
                 embeds c1 = default VUndefined (props !! "_embedded")
                 /\ links c1 = default VUndefined (props !! "_links")).
Proof.
  intros He Ha Hdocs.
  assert (Ha_lt : a < length h) by (eapply lookup_lt_Some; eauto).
  destruct (GetAllClients_spec e a docs h He Ha Hdocs)
    as (h1 & Hrun1 & Hlen1 & Harr1 & Hold1 & Hnew1).
  assert (Ha1 : h1 !! a = Some (OArray docs)).
  { rewrite Hold1, Ha by assumption. now destruct (bool_decide _). }
  assert (Hstripped : forall l props, VRef l ∈ docs -> h !! l = Some (OPlain props) ->
                        h1 !! l = Some (OPlain (strip props))).
  { intros l props Hin Hl. rewrite Hold1 by (eapply lookup_lt_Some; eauto).
    rewrite Hl. now rewrite bool_decide_eq_true_2. }
  assert (Hdocs1 : Forall (is_document h1) docs).
  { apply Forall_forall. intros d Hin.
    destruct (proj1 (Forall_forall _ _) Hdocs d Hin) as (l & props & -> & Hl).
    exists l, (strip props). split; [reflexivity|]. now apply Hstripped. }
  destruct (GetAllClients_spec e a docs h1 He Ha1 Hdocs1)
    as (h2 & Hrun2 & Hlen2 & Harr2 & Hold2 & Hnew2).
  exists h1, h2, (VRef <$> seq (S (length h)) (length docs)),
    (VRef <$> seq (S (length h1)) (length docs)).
  split; [assumption|]. split; [assumption|]. split; [lia|].
  split. { rewrite Hold2, Harr1 by lia. now destruct (bool_decide _). }
  split; [assumption|].
  split; [now rewrite length_fmap, length_seq|].
  split; [now rewrite length_fmap, length_seq|].
  intros i d Hi.
  assert (Hi_lt : i < length docs) by (eapply lookup_lt_Some; eauto).
  assert (Hin : d ∈ docs) by (eapply list_elem_of_lookup_2; eauto).
  destruct (proj1 (Forall_forall _ _) Hdocs d Hin) as (l & props & -> & Hl).
  pose proof (Hnew1 i l props Hi Hl) as Hc1.
  pose proof (Hnew2 i l (strip props) Hi (Hstripped l props Hin Hl)) as Hc2.
  eexists _, _.
  split. { rewrite list_lookup_fmap, lookup_seq_lt by assumption. reflexivity. }
  split. { rewrite list_lookup_fmap, lookup_seq_lt by assumption. reflexivity. }
  split; [lia|].
  split. { rewrite Hold2, Hc1 by lia. now destruct (bool_decide (_ ∈ docs)). }
  split; [exact Hc2|].
  split; [reflexivity|]. split; [reflexivity|].
  split. { destruct (bool_decide _); rewrite ?strip_idemp, client_over_stripped; reflexivity. }
  split. { destruct (bool_decide _); rewrite ?strip_idemp, client_over_stripped; reflexivity. }
  intros Hfirst l' props' [= <-] Hl'. rewrite Hl in Hl'. injection Hl' as <-.
  rewrite bool_decide_eq_false_2 by assumption. split; reflexivity.
Qed.

(** * Runs on the sample data *)

(** The first version answers a failed HTML response with the unsupported
    response type error, not with the generic server error. *)
Lemma failed_html_response_is_unsupported :
  ok html_failure = false
  /\ content_type_matches html_failure halcyonJsonMimeType = false
  /\ content_type_matches html_failure jsonMimeType = false
  /\ processResult JSON_rejects html_failure transport []
     = (Throw (Error "Unsupported response type text/html."), []).
Proof. repeat split. Qed.

Lemma processResult_failed_other_content_type_witness :
  ok html_failure = false
  /\ content_type_matches html_failure halcyonJsonMimeType = false
  /\ content_type_matches html_failure jsonMimeType = false
  /\ processResult JSON_rejects html_failure transport []
     = (Throw (Error "Unsupported response type text/html."), [])
  /\ SecondVersion.processResult JSON_rejects html_failure transport []
     = (Throw (Error "Generic server error with status 500 Internal Server Error returned."),
        []).
Proof.
  split; [reflexivity|]. split; [reflexivity|]. split; [reflexivity|].
  destruct (processResult_failed_other_content_type JSON_rejects html_failure transport []
              eq_refl eq_refl eq_refl) as (H1 & H2 & _).
  split; [exact H1 | exact H2].
Defined.

(** A successful response without content type, or with an empty one, does
    not match the hypermedia media type, and [parseResult] does not fail
    on it. *)
Lemma parseResult_accepts_missing_content_type :
  (ok untyped_success = true
   /\ content_type_matches untyped_success halcyonJsonMimeType = false
   /\ parseResult JSON_rejects untyped_success "{}" []
      = (Normal (VRef 0), [empty_envelope]))
  /\ (ok empty_typed_success = true
      /\ content_type_matches empty_typed_success halcyonJsonMimeType = false
      /\ parseResult JSON_rejects empty_typed_success "{}" []
         = (Normal (VRef 0), [empty_envelope])).
Proof. repeat split. Qed.

Lemma parseResult_success_other_content_type_witness :
  ok json_success = true
  /\ content_type_matches json_success halcyonJsonMimeType = false
  /\ parseResult JSON_rejects json_success "{}" []
     = (Throw (Error "Unsupported response type application/json."), []).
Proof.
  split; [reflexivity|]. split; [reflexivity|].
  apply (parseResult_success_other_content_type JSON_rejects json_success "{}" []);
    reflexivity.
Defined.

Lemma processResult_empty_success_witness :
  ok empty_halcyon_success = true
  /\ content_type_matches empty_halcyon_success halcyonJsonMimeType = true
  /\ text empty_halcyon_success = ""
  /\ processResult JSON_rejects empty_halcyon_success transport [] = (Throw TypeError, []).
Proof.
  split; [reflexivity|]. split; [reflexivity|]. split; [reflexivity|].
  apply (processResult_empty_success JSON_rejects empty_halcyon_success transport
           transport (mkRequest VUndefined VUndefined BodyUndefined []) []);
    reflexivity.
Defined.

(** The error body of the specification gives a [HalError] that knows the
    field [name] and no field [missing]. *)
Example validation_failure_is_HalError :
  exists e h,
    processResult JSON_parse_error_body validation_failure transport []
      = (Throw (ThrownHalError e), h)
    /\ getStatusCode e = 400%Z
    /\ message e = VString "bad"
    /\ hasValidationError e "name" h = (Normal true, h)
    /\ getValidationError e "name" h = (Normal (VString "required"), h)
    /\ hasValidationError e "missing" h = (Normal false, h)
    /\ getValidationError e "missing" h = (Normal VUndefined, h).
Proof. eexists _, _. repeat split. Qed.

Lemma GetData_is_the_stripped_document_witness :
  sample_store !! 0 = Some (OPlain {[ "_links" := VRef 1; "_embedded" := VRef 3;
                                      "title" := VString "root" ]})
  /\ exists c h',
       new_HalEndpointClient (VRef 0) transport sample_store = (Normal (VRef 8), h')
       /\ h' !! 8 = Some (OClient c)
       /\ GetData c = VRef 0
       /\ h' !! 0 = Some (OPlain {[ "title" := VString "root" ]}).
Proof.
  split; [reflexivity|].
  destruct (GetData_is_the_stripped_document 0 _ transport sample_store eq_refl)
    as (c & h' & Hnew & Hc & Hdata & _ & _ & (payload & Hpayload & Hl & He & Hother) & _).
  exists c, h'. split; [exact Hnew|]. split; [exact Hc|]. split; [exact Hdata|].
  rewrite Hpayload. do 2 f_equal. apply map_eq. intros k.
  destruct (decide (k = "_links")) as [->|H1]; [now rewrite Hl|].
  destruct (decide (k = "_embedded")) as [->|H2]; [now rewrite He|].
  rewrite Hother by assumption.
  rewrite !lookup_insert_ne by congruence. reflexivity.
Defined.

(** C5 at the inputs where the code departs from it.  The link table of
    the sample client has the one key [self].  The name [constructor] is
    found on it all the same, as the built-in [Object] that every object
    inherits: [HasLink] answers [true], [LoadLink] does not throw the
    "Cannot find ref" error, and [LoadRawLink] hands out the promise of a
    request whose url and method are [undefined].  On a client whose link
    table is [null], [HasLink] does not answer [false]: it throws a
    [TypeError], and so does [LoadLink]. *)
Theorem unknown_relation_inherited_or_null :
  (links sample_client = VRef 1
   /\ sample_store !! 1 = Some (OPlain {[ "self" := VRef 2 ]})
   /\ ({[ "self" := VRef 2 ]} : gmap string Value) !! "constructor" = None
   /\ HasLink sample_client "constructor" sample_store = (Normal true, sample_store)
   /\ GetLink sample_client "constructor" sample_store
      = (Normal (VBuiltin "Object"), sample_store)
   /\ LoadRawLink sample_client "constructor" sample_store
      = (Normal (Fetch transport
                   (mkRequest VUndefined VUndefined BodyUndefined base_headers)),
         sample_store)
   /\ LoadLink sample_client "constructor" sample_store
      = (Normal (ThenProcessResult
                   (Fetch transport
                      (mkRequest VUndefined VUndefined BodyUndefined base_headers))
                   transport),
         sample_store))
  /\ (links null_table_client = VNull
      /\ HasLink null_table_client "self" [OPlain ∅] = (Throw TypeError, [OPlain ∅])
      /\ LoadLink null_table_client "self" [OPlain ∅] = (Throw TypeError, [OPlain ∅])).
Proof.
  split.
  - split; [reflexivity|]. split; [reflexivity|]. split; [reflexivity|].
    split; [reflexivity|]. split; [reflexivity|]. split; reflexivity.
  - split; [reflexivity|]. split; reflexivity.
Qed.

Lemma unknown_relation_throws_witness :
  NoRelation sample_store sample_client "next"
  /\ HasLink sample_client "next" sample_store = (Normal false, sample_store)
  /\ LoadLink sample_client "next" sample_store
     = (Throw (Error (cannot_find_ref "next")), sample_store).
Proof.
  assert (H : NoRelation sample_store sample_client "next").
  { eapply not_in_link_table; reflexivity. }
  split; [exact H|].
  destruct (unknown_relation_throws sample_stringify sample_uri sample_client "next"
              DUndefined DNull sample_store H) as (H1 & H2 & _).
  split; assumption.
Defined.

Lemma GetQueryLink_without_query_witness :
  GetQueryLink sample_uri (VRef 2) DUndefined sample_store = (Normal (VRef 2), sample_store)
  /\ GetQueryLink sample_uri (VRef 2) DNull sample_store = (Normal (VRef 2), sample_store)
  /\ exists h' : Heap,
       GetQueryLink sample_uri (VRef 2) sample_query sample_store = (Normal (VRef 8), h')
       /\ h' !! 2 = sample_store !! 2
       /\ getProp (VRef 8) "href" h' = (Normal (VString "/a?page=2"), h')
       /\ getProp (VRef 8) "method" h' = (Normal (VString "GET"), h').
Proof.
  destruct (GetQueryLink_without_query sample_uri (VRef 2) sample_query sample_store)
    as (H1 & H2 & H3).
  split; [exact H1|]. split; [exact H2|].
  destruct (H3 2 _ eq_refl eq_refl ltac:(discriminate) ltac:(discriminate))
    as (h' & Hrun & _ & Hl & Hhref & Hmethod).
  exists h'. split; [exact Hrun|]. split; [exact Hl|].
  split; [exact Hhref|exact Hmethod].
Defined.



(** Two calls on the wrapper of [items]: the client of the first call has
    the link table of the document, the client of the second call has
    none. *)
Lemma second_call_loses_links :
  let first_run := GetAllClients sample_embed sample_store in
  let second_run := GetAllClients sample_embed first_run.2 in
  first_run.1 = Normal (VRef 8)
  /\ second_run.1 = Normal (VRef 10)
  /\ second_run.2 !! 8 = Some (OArray [VRef 9])
  /\ second_run.2 !! 10 = Some (OArray [VRef 11])
  /\ second_run.2 !! 9 = Some (OClient (mkClient (VRef 5) transport VUndefined (VRef 6)))
  /\ second_run.2 !! 11 = Some (OClient (mkClient (VRef 5) transport VUndefined VUndefined)).
Proof. vm_compute. repeat split. Qed.

Lemma GetAllClients_twice_witness :
  embed_embeds sample_embed = VRef 4
  /\ sample_store !! 4 = Some (OArray [VRef 5])
  /\ Forall (is_document sample_store) [VRef 5]
  /\ exists (h1 h2 : Heap) (first second : list Value),
       GetAllClients sample_embed sample_store = (Normal (VRef 8), h1)
       /\ GetAllClients sample_embed h1 = (Normal (VRef (length h1)), h2)
       /\ h2 !! 8 = Some (OArray first)
       /\ h2 !! length h1 = Some (OArray second)
       /\ length first = 1
       /\ length second = 1.
Proof.
  assert (H : Forall (is_document sample_store) [VRef 5]).
  { repeat constructor. eexists 5, _. split; reflexivity. }
  split; [reflexivity|]. split; [reflexivity|]. split; [exact H|].
  destruct (GetAllClients_twice sample_embed 4 [VRef 5] sample_store eq_refl eq_refl H)
    as (h1 & h2 & first & second & H1 & H2 & _ & H3 & H4 & H5 & H6 & _).
  exists h1, h2, first, second.
  split; [exact H1|]. split; [exact H2|]. split; [exact H3|].
  split; [exact H4|]. split; [exact H5|]. exact H6.
Defined.

(** * More of the code *)

(** ** More on response classification *)

Lemma starts_with_cons d h c m :
  starts_with (String d h) (String c m) = Ascii.eqb d c && starts_with h m.
Proof.
  unfold starts_with. simpl.
  destruct (Ascii.eqb d c); simpl; [reflexivity|]. now rewrite andb_false_r.
Qed.

Lemma starts_with_prefix h m :
  starts_with h m = true <-> exists rest, h = m +:+ rest.
Proof.
  revert h. induction m as [|c m IH]; intros h.
  - split; [intros _; now exists h|]. intros _. unfold starts_with. simpl.
    now destruct h.
  - destruct h as [|d h].
    + split; [discriminate|]. intros [rest E]. discriminate.
    + rewrite starts_with_cons, andb_true_iff, IH. split.
      * intros [Hc [rest ->]]. apply Ascii.eqb_eq in Hc as ->. now exists rest.
      * intros [rest E]. simpl in E. injection E as -> ->.
        split; [apply Ascii.eqb_refl | now exists rest].
Qed.

Lemma halcyon_is_json ct :
  starts_with ct halcyonJsonMimeType = true -> starts_with ct jsonMimeType = true.
Proof.
  rewrite !starts_with_prefix. intros [rest ->].
  exists ("+halcyon" +:+ rest). reflexivity.
Qed.

(** X1.  The content type test of [parseResult], a length comparison and
    a [substring], is a prefix test: it succeeds exactly on the headers
    that begin with the media type, character for character. *)
Theorem starts_with_is_prefix h m :
  starts_with h m = true <-> exists rest, h = m +:+ rest.
Proof. apply starts_with_prefix. Qed.

Section MoreClassification.
Variable JSON_parse : string -> M Value.

Lemma parseResult_accepted response data ct h :
  headers_get response "content-type" = Some ct ->
  ct <> "" ->
  parseResult JSON_parse response data h =
    if starts_with ct (if ok response then halcyonJsonMimeType else jsonMimeType)
    then (if String.eqb data "" then (Normal VNull, h) else JSON_parse data h)
    else (Throw (Error (unsupported_message ct)), h).
Proof.
  intros Hct Hne. unfold parseResult. rewrite Hct, truthy_header_Some by assumption.
  change (default "" (Some ct)) with ct.
  destruct (ok response); simpl negb.
  - rewrite andb_false_r, orb_false_r.
    destruct (starts_with ct halcyonJsonMimeType); [|reflexivity].
    now destruct (String.eqb data "").
  - rewrite andb_true_r.
    destruct (starts_with ct halcyonJsonMimeType) eqn:Hh.
    + rewrite (halcyon_is_json _ Hh). simpl. now destruct (String.eqb data "").
    + simpl. destruct (starts_with ct jsonMimeType); [|reflexivity].
      now destruct (String.eqb data "").
Qed.

(** X2.  With a content type, [parseResult] reads the body exactly when
    the header begins with the hypermedia media type, for a successful
    response, or with the generic JSON type, for a failed one (the
    hypermedia type begins with the generic one): the body is then [null]
    when empty and what [JSON.parse] makes of it otherwise; any other
    header is refused. *)
Theorem parseResult_accepts response data ct h :
  headers_get response "content-type" = Some ct ->
  ct <> "" ->
  parseResult JSON_parse response data h =
    if starts_with ct (if ok response then halcyonJsonMimeType else jsonMimeType)
    then (if String.eqb data "" then (Normal VNull, h) else JSON_parse data h)
    else (Throw (Error (unsupported_message ct)), h).
Proof. apply parseResult_accepted. Qed.

(** X3.  The two versions of [parseResult] in the file give the same
    result exactly on the responses that have a content type and are
    either successful or of a JSON content type; they part on a response
    without content type and on a failed response of another type. *)
Theorem versions_agree response data h :
  parseResult JSON_parse response data h
    = SecondVersion.parseResult JSON_parse response data h
  <-> truthy_header (headers_get response "content-type") = true
      /\ (ok response = true \/ content_type_matches response jsonMimeType = true).
Proof.
  unfold parseResult, SecondVersion.parseResult, content_type_matches.
  unfold alloc, throw, ret.
  destruct (headers_get response "content-type") as [ct|]; unfold truthy_header;
    [|split; [discriminate | intros [? _]; discriminate]].
  change (default "" (Some ct)) with ct.
  destruct (String.eqb ct ""); simpl negb; cbv iota;
    [split; [discriminate | intros [? _]; discriminate]|].
  destruct (starts_with ct halcyonJsonMimeType) eqn:Hh.
  - rewrite (halcyon_is_json _ Hh). simpl orb. split; [|reflexivity].
    intros _. split; [reflexivity|]. now right.
  - simpl orb. destruct (starts_with ct jsonMimeType) eqn:Hj; simpl andb.
    + destruct (ok response); simpl negb.
      * split; [|reflexivity]. intros _. split; [reflexivity|]. now left.
      * split; [|reflexivity]. intros _. split; [reflexivity|]. now right.
    + destruct (ok response); simpl negb.
      * split; [|reflexivity]. intros _. split; [reflexivity|]. now left.
      * split.
        -- intros [= E].
        -- intros [_ [?|?]]; discriminate.
Qed.

(** X4.  A successful response of the hypermedia media type whose body
    [JSON.parse] turns into an object fulfils the promise with a new
    client over that very object: the links and embeds are the ones of the
    document, and the document has lost both keys. *)
Theorem processResult_success_document response fetcher ct l props (h h' : Heap) :
  ok response = true ->
  headers_get response "content-type" = Some ct ->
  starts_with ct halcyonJsonMimeType = true ->
  text response <> "" ->
  JSON_parse (text response) h = (Normal (VRef l), h') ->
  h' !! l = Some (OPlain props) ->
  exists c h'',
    processResult JSON_parse response fetcher h = (Normal (VRef (length h')), h'')
    /\ h'' !! length h' = Some (OClient c)
    /\ GetData c = VRef l
    /\ links c = default VUndefined (props !! "_links")
    /\ embeds c = default VUndefined (props !! "_embedded")
    /\ h'' !! l = Some (OPlain (strip props)).
Proof.
  intros Hok Hct Hh Ht Hparse Hl.
  assert (Hne : ct <> "").
  { apply (starts_with_nonempty ct halcyonJsonMimeType); [discriminate|assumption]. }
  assert (Hlt : l < length h') by (eapply lookup_lt_Some; eauto).
  assert (Hp : parseResult JSON_parse response (text response) h = (Normal (VRef l), h')).
  { rewrite (parseResult_accepted _ _ ct) by assumption. rewrite Hok, Hh.
    destruct (String.eqb_spec (text response) ""); [contradiction|assumption]. }
  eexists _, _. split.
  { unfold processResult. rewrite (bind_normal _ _ _ _ _ Hp), Hok.
    apply (new_HalEndpointClient_document _ _ _ _ Hl). }
  split. { rewrite lookup_app_r; rewrite length_insert; [|lia]. now rewrite Nat.sub_diag. }
  split; [reflexivity|]. split; [reflexivity|]. split; [reflexivity|].
  rewrite lookup_app_l by (rewrite length_insert; lia).
  now apply list_lookup_insert_eq.
Qed.

(** X5.  When [JSON.parse] throws on the body of an accepted response,
    the promise is rejected with that exception, for a successful and for
    a failed response alike: a failed response with a malformed body does
    not give the generic server error. *)
Theorem processResult_malformed_body response fetcher ct e (h h' : Heap) :
  headers_get response "content-type" = Some ct ->
  starts_with ct (if ok response then halcyonJsonMimeType else jsonMimeType) = true ->
  text response <> "" ->
  JSON_parse (text response) h = (Throw e, h') ->
  processResult JSON_parse response fetcher h = (Throw e, h').
Proof.
  intros Hct Hs Ht Hparse.
  assert (Hne : ct <> "").
  { apply (starts_with_nonempty ct _ ) in Hs; [assumption|].
    destruct (ok response); discriminate. }
  unfold processResult. apply bind_throw.
  rewrite (parseResult_accepted _ _ ct) by assumption. rewrite Hs.
  destruct (String.eqb_spec (text response) ""); [contradiction|assumption].
Qed.

(** X6.  A successful response without content type fulfils the promise
    with a client over a new empty object, without links and without
    embeds, whatever its body is: the text of the body plays no part and
    [JSON.parse] is not called. *)
Theorem processResult_untyped_success response fetcher (h : Heap) :
  ok response = true ->
  truthy_header (headers_get response "content-type") = false ->
  processResult JSON_parse response fetcher h =
    (Normal (VRef (S (length h))),
     h ++ [OPlain ∅; OClient (mkClient (VRef (length h)) fetcher VUndefined VUndefined)]).
Proof.
  intros Hok Ht. unfold processResult, parseResult. rewrite Ht, Hok.
  unfold bind at 1. unfold alloc at 1.
  rewrite (new_HalEndpointClient_document _ _ _ _ (lookup_fresh h _)).
  rewrite length_app. simpl length. rewrite Nat.add_1_r. f_equal.
  rewrite insert_app_r_alt by lia. rewrite Nat.sub_diag. simpl.
  rewrite <- app_assoc. simpl. reflexivity.
Qed.
End MoreClassification.

(** ** [HalError] *)

(** X7.  On an error body without [errors], or with an object there,
    [getValidationError] and [hasValidationError] do not throw and agree:
    the second answers whether the first is defined.  Without [errors] the
    answers are [undefined] and [false], for every name.  With an object
    the value is its own property of that name, and without one what
    [Object.prototype] holds under the name: a built-in for [toString] or
    [constructor], for which [hasValidationError] then answers [true]. *)
Theorem validation_errors_lookup e l body name (h : Heap) :
  errorData e = VRef l ->
  h !! l = Some (OPlain body) ->
  body !! "errors" = None
  \/ (exists le fields, body !! "errors" = Some (VRef le) /\ h !! le = Some (OPlain fields)) ->
  exists v,
    getValidationError e name h = (Normal v, h)
    /\ hasValidationError e name h = (Normal (defined v), h)
    /\ (body !! "errors" = None -> v = VUndefined)
    /\ (forall le fields, body !! "errors" = Some (VRef le) -> h !! le = Some (OPlain fields) ->
          v = default (Object_prototype name) (fields !! name)).
Proof.
  intros He Hl Herr.
  assert (Hget : getProp (errorData e) "errors" h
                 = (Normal (default VUndefined (body !! "errors")), h)).
  { rewrite He. apply (getProp_ref _ "errors" _ _ Hl eq_refl). }
  unfold getValidationError, hasValidationError, hasValidationErrors.
  destruct Herr as [Hnone | (le & fields & Hsome & Hle)].
  - exists VUndefined.
    rewrite !(bind_normal _ _ _ _ _ (bind_normal _ _ _ _ _ Hget)).
    rewrite Hnone. simpl.
    split; [reflexivity|]. split; [reflexivity|]. split; [reflexivity|].
    intros ? ? [=].
  - exists (default (Object_prototype name) (fields !! name)).
    rewrite !(bind_normal _ _ _ _ _ (bind_normal _ _ _ _ _ Hget)).
    rewrite Hsome. change (default VUndefined (Some (VRef le))) with (VRef le).
    change (defined (VRef le)) with true. cbv iota.
    rewrite !(bind_normal _ _ _ _ _ Hget). rewrite Hsome.
    change (default VUndefined (Some (VRef le))) with (VRef le).
    rewrite !(bind_normal _ _ _ _ _ (getProp_ref _ _ _ _ Hle eq_refl)).
    rewrite (getProp_ref _ name _ _ Hle eq_refl).
    split; [reflexivity|]. split; [reflexivity|]. split; [congruence|].
    intros le' fields' [= <-] Hle'. rewrite Hle in Hle'. now injection Hle' as <-.
Qed.

(** X8.  On an error body whose [errors] is [null],
    [hasValidationErrors] answers [true], and [getValidationError] and
    [hasValidationError] throw a [TypeError] for every name. *)
Theorem validation_errors_null e l body name (h : Heap) :
  errorData e = VRef l ->
  h !! l = Some (OPlain body) ->
  body !! "errors" = Some VNull ->
  hasValidationErrors e h = (Normal true, h)
  /\ getValidationError e name h = (Throw TypeError, h)
  /\ hasValidationError e name h = (Throw TypeError, h).
Proof.
  intros He Hl Hnull.
  assert (Hget : getProp (errorData e) "errors" h = (Normal VNull, h)).
  { rewrite He, (getProp_ref _ "errors" _ _ Hl eq_refl). simpl. now rewrite Hnull. }
  assert (Hhas : hasValidationErrors e h = (Normal true, h)).
  { unfold hasValidationErrors. now rewrite (bind_normal _ _ _ _ _ Hget). }
  split; [assumption|].
  unfold getValidationError, hasValidationError.
  rewrite !(bind_normal _ _ _ _ _ Hhas). cbv iota.
  rewrite !(bind_normal _ _ _ _ _ Hget). split; reflexivity.
Qed.

(** *** [addKey] *)
Lemma upper_ascii_idemp c : upper_ascii (upper_ascii c) = upper_ascii c.
Proof.
  unfold upper_ascii.
  destruct ((97 <=? Ascii.nat_of_ascii c)%nat && (Ascii.nat_of_ascii c <=? 122)%nat) eqn:E.
  - apply andb_true_iff in E as [E1 E2].
    apply Nat.leb_le in E1. apply Nat.leb_le in E2.
    rewrite Ascii.nat_ascii_embedding by lia.
    replace ((97 <=? Ascii.nat_of_ascii c - 32)%nat) with false; [reflexivity|].
    symmetry. apply Nat.leb_gt. lia.
  - now rewrite E.
Qed.

Lemma upper_ascii_is_ascii c : is_ascii c = true -> is_ascii (upper_ascii c) = true.
Proof.
  unfold is_ascii, upper_ascii. intros H. apply Nat.ltb_lt in H.
  destruct ((97 <=? Ascii.nat_of_ascii c)%nat && (Ascii.nat_of_ascii c <=? 122)%nat) eqn:E.
  - apply andb_true_iff in E as [E1 E2].
    apply Nat.leb_le in E1. apply Nat.leb_le in E2.
    rewrite Ascii.nat_ascii_embedding by lia. apply Nat.ltb_lt. lia.
  - now apply Nat.ltb_lt.
Qed.

(** X9.  Under a base name, [addKey] joins the base, a dot and the key
    with its first letter in upper case, so that two keys that differ in
    the case of the first letter give the same name; an empty key makes
    it throw a [TypeError].  Without base name the key is returned as it
    is, not capitalised. *)
Theorem addKey_capitalises baseName c rest :
  baseName <> "" ->
  is_ascii c = true ->
  addKey baseName (String c rest)
    = Normal (baseName +:+ "." +:+ String (upper_ascii c) rest)
  /\ addKey baseName (String (upper_ascii c) rest) = addKey baseName (String c rest)
  /\ addKey baseName "" = Throw TypeError
  /\ addKey "" (String c rest) = Normal (String c rest).
Proof.
  intros H Hc.
  assert (Hb : negb (String.eqb baseName "") = true).
  { destruct (String.eqb_spec baseName ""); [contradiction|reflexivity]. }
  unfold addKey. rewrite Hb, Hc, (upper_ascii_is_ascii _ Hc), upper_ascii_idemp.
  split; [reflexivity|]. split; [reflexivity|]. split; reflexivity.
Qed.

Lemma HasLink_relation this ref ll link h :
  relation_is h this ref ll link -> HasLink this ref h = (Normal true, h).
Proof.
  intros (lt & table & Hl & Ht & Hr & _). unfold HasLink. rewrite Hl. change (defined (VRef lt)) with true.
  cbv iota. rewrite (bind_normal _ _ _ _ _ (getProp_ref _ _ _ _ Ht eq_refl)).
  simpl. now rewrite Hr.
Qed.

Lemma GetLink_relation this ref ll link h :
  relation_is h this ref ll link -> GetLink this ref h = (Normal (VRef ll), h).
Proof.
  intros (lt & table & Hl & Ht & Hr & _). unfold GetLink. rewrite Hl.
  rewrite (getProp_ref _ _ _ _ Ht eq_refl). simpl. now rewrite Hr.
Qed.

Lemma LoadRaw_object ll link f options (h : Heap) :
  h !! ll = Some link ->
  LoadRaw (VRef ll) f (Some options) h =
    (Normal (Fetch f (mkRequest (obj_prop link "href") (obj_prop link "method")
                                (reqBody options)
                                (match contentType options with
                                 | Some ct => base_headers ++ [("Content-Type", VString ct)]
                                 | None => base_headers
                                 end))), h).
Proof.
  intros Hl. unfold LoadRaw.
  rewrite (bind_normal _ _ _ _ _ (getProp_name _ "href" _ _ Hl eq_refl)).
  rewrite (bind_normal _ _ _ _ _ (getProp_name _ "method" _ _ Hl eq_refl)). reflexivity.
Qed.

(** ** Requests *)

Section Requests.
Variable JSON_stringify : JsData -> option string.
Variable Uri_build : Value -> JsData -> string.

(** X10.  For a relation whose link is an object, the raw operations
    return the promise of one request: the [href] and the [method] of the
    link, the [Accept] header of the hypermedia type and the [bearer]
    entry; a JSON body comes with the JSON content type, a form body with
    none.  With a query object the [href] is the rebuilt one and the store
    gains the new link; otherwise the store is as before. *)
Theorem raw_requests this ref ll link (query data : JsData) (h : Heap) :
  relation_is h this ref ll link ->
  no_query query = false ->
  let href := obj_prop link "href" in
  let method := obj_prop link "method" in
  let href' := VString (Uri_build href query) in
  let h' := h ++ [query_link Uri_build link query] in
  LoadRawLink this ref h
    = (Normal (Fetch (fetcher this) (mkRequest href method BodyUndefined base_headers)), h)
  /\ LoadRawLinkWithBody JSON_stringify this ref data h
     = (Normal (Fetch (fetcher this)
                  (mkRequest href method (stringified JSON_stringify data) json_headers)), h)
  /\ LoadRawLinkWithForm this ref data h
     = (Normal (Fetch (fetcher this)
                  (mkRequest href method (BodyFormData (jsonToFormData data None None))
                             base_headers)), h)
  /\ LoadRawLinkWithQuery Uri_build this ref query h
     = (Normal (Fetch (fetcher this) (mkRequest href' method BodyUndefined base_headers)), h')
  /\ LoadRawLinkWithQueryAndBody JSON_stringify Uri_build this ref query data h
     = (Normal (Fetch (fetcher this)
                  (mkRequest href' method (stringified JSON_stringify data) json_headers)), h')
  /\ LoadRawLinkWithQueryAndForm Uri_build this ref query data h
     = (Normal (Fetch (fetcher this)
                  (mkRequest href' method (BodyFormData (jsonToFormData data None None))
                             base_headers)), h').
Proof.
  intros Hrel Hq href method href' h'.
  pose proof (HasLink_relation _ _ _ _ _ Hrel) as Hhas.
  pose proof (GetLink_relation _ _ _ _ _ Hrel) as Hget.
  destruct Hrel as (lt & table & _ & _ & _ & Hl).
  assert (Hlt : ll < length h) by (eapply lookup_lt_Some; eauto).
  assert (Hquery : GetQueryLink Uri_build (VRef ll) query h = (Normal (VRef (length h)), h')).
  { apply GetQueryLink_with_query; [assumption| |]; intros ->; discriminate. }
  assert (Hnew : h' !! length h = Some (query_link Uri_build link query))
    by apply lookup_fresh.
  unfold LoadRawLink, LoadRawLinkWithBody, LoadRawLinkWithForm, LoadRawLinkWithQuery,
    LoadRawLinkWithQueryAndBody, LoadRawLinkWithQueryAndForm.
  rewrite !(bind_normal _ _ _ _ _ Hhas). cbv iota.
  rewrite !(bind_normal _ _ _ _ _ Hget).
  rewrite !(bind_normal _ _ _ _ _ Hquery).
  unfold json_body, form_body.
  change (LoadRaw (VRef ll) (fetcher this) None)
    with (LoadRaw (VRef ll) (fetcher this) (Some (mkLoadOptions BodyUndefined None))).
  change (LoadRaw (VRef (length h)) (fetcher this) None)
    with (LoadRaw (VRef (length h)) (fetcher this) (Some (mkLoadOptions BodyUndefined None))).
  rewrite !(LoadRaw_object _ _ _ _ _ Hl), !(LoadRaw_object _ _ _ _ _ Hnew).
  repeat (split; [reflexivity|]). reflexivity.
Qed.

Lemma then_processResult_bind {A} (m : M A) (k : A -> M Promise) f h :
  then_processResult f (let* x := m in k x) h
  = (let* x := m in then_processResult f (k x)) h.
Proof. unfold then_processResult, bind. destruct (m h) as [[a|e|] h']; reflexivity. Qed.

Lemma Load_is_then_LoadRaw link f options h :
  Load link f options h = then_processResult f (LoadRaw link f options) h.
Proof. unfold Load, then_processResult. now destruct options. Qed.

Lemma then_processResult_if (b : bool) (m1 m2 : M Promise) f h :
  then_processResult f (if b then m1 else m2) h
  = (if b then then_processResult f m1 else then_processResult f m2) h.
Proof. now destruct b. Qed.

Lemma bind_ext {A B} (m : M A) (k1 k2 : A -> M B) h :
  (forall a h', k1 a h' = k2 a h') -> bind m k1 h = bind m k2 h.
Proof. intros H. unfold bind. destruct (m h) as [[a|e|] h']; auto. Qed.

Ltac load_vs_raw :=
  intros; rewrite then_processResult_bind; apply bind_ext; intros [] ?;
  [ repeat (rewrite then_processResult_bind; apply bind_ext; intros ? ?);
    apply Load_is_then_LoadRaw
  | reflexivity ].

(** X11.  Each parsing operation is its raw counterpart followed by
    [processResult]: it throws when the raw one throws, and otherwise
    returns the promise of the same request, continued by
    [processResult] with the fetcher of the client. *)
Theorem Load_is_LoadRaw_then_processResult this ref (query data : JsData) h :
  LoadLink this ref h = then_processResult (fetcher this) (LoadRawLink this ref) h
  /\ LoadLinkWithQuery Uri_build this ref query h
     = then_processResult (fetcher this) (LoadRawLinkWithQuery Uri_build this ref query) h
  /\ LoadLinkWithBody JSON_stringify this ref data h
     = then_processResult (fetcher this) (LoadRawLinkWithBody JSON_stringify this ref data) h
  /\ LoadLinkWithQueryAndBody JSON_stringify Uri_build this ref query data h
     = then_processResult (fetcher this)
         (LoadRawLinkWithQueryAndBody JSON_stringify Uri_build this ref query data) h
  /\ LoadLinkWithForm this ref data h
     = then_processResult (fetcher this) (LoadRawLinkWithForm this ref data) h
  /\ LoadLinkWithQueryAndForm Uri_build this ref query data h
     = then_processResult (fetcher this)
         (LoadRawLinkWithQueryAndForm Uri_build this ref query data) h.
Proof.
  unfold LoadLink, LoadLinkWithQuery, LoadLinkWithBody, LoadLinkWithQueryAndBody,
    LoadLinkWithForm, LoadLinkWithQueryAndForm, LoadRawLink, LoadRawLinkWithQuery,
    LoadRawLinkWithBody, LoadRawLinkWithQueryAndBody, LoadRawLinkWithForm,
    LoadRawLinkWithQueryAndForm.
  repeat split; load_vs_raw.
Qed.

(** X12.  With [undefined] or [null] for the query, each operation with
    a query behaves as the operation without one, on every client, every
    relation and every store. *)
Theorem no_query_is_no_rewrite this ref (query data : JsData) h :
  no_query query = true ->
  LoadLinkWithQuery Uri_build this ref query h = LoadLink this ref h
  /\ LoadLinkWithQueryAndBody JSON_stringify Uri_build this ref query data h
     = LoadLinkWithBody JSON_stringify this ref data h
  /\ LoadLinkWithQueryAndForm Uri_build this ref query data h
     = LoadLinkWithForm this ref data h
  /\ LoadRawLinkWithQuery Uri_build this ref query h = LoadRawLink this ref h
  /\ LoadRawLinkWithQueryAndBody JSON_stringify Uri_build this ref query data h
     = LoadRawLinkWithBody JSON_stringify this ref data h
  /\ LoadRawLinkWithQueryAndForm Uri_build this ref query data h
     = LoadRawLinkWithForm this ref data h.
Proof.
  intros Hq.
  assert (Hret : forall link h', GetQueryLink Uri_build link query h' = (Normal link, h')).
  { intros link h'. destruct query; try discriminate; reflexivity. }
  unfold LoadLink, LoadLinkWithQuery, LoadLinkWithBody, LoadLinkWithQueryAndBody,
    LoadLinkWithForm, LoadLinkWithQueryAndForm, LoadRawLink, LoadRawLinkWithQuery,
    LoadRawLinkWithBody, LoadRawLinkWithQueryAndBody, LoadRawLinkWithForm,
    LoadRawLinkWithQueryAndForm.
  repeat split; apply bind_ext; intros [] ?; try reflexivity;
    apply bind_ext; intros link hq; now rewrite (bind_normal _ _ _ _ _ (Hret link hq)).
Qed.

(** X13.  For a relation that the link table maps to [null], [HasLink]
    answers [true], and every navigation operation throws a [TypeError]
    when it reads the link, not the "Cannot find ref" error. *)
Theorem null_link_throws_TypeError this ref (query data : JsData) h :
  relation_is_null h this ref ->
  HasLink this ref h = (Normal true, h)
  /\ LoadLink this ref h = (Throw TypeError, h)
  /\ LoadLinkWithQuery Uri_build this ref query h = (Throw TypeError, h)
  /\ LoadLinkWithBody JSON_stringify this ref data h = (Throw TypeError, h)
  /\ LoadLinkWithQueryAndBody JSON_stringify Uri_build this ref query data h
     = (Throw TypeError, h)
  /\ LoadLinkWithForm this ref data h = (Throw TypeError, h)
  /\ LoadLinkWithQueryAndForm Uri_build this ref query data h = (Throw TypeError, h)
  /\ LoadRawLink this ref h = (Throw TypeError, h)
  /\ LoadRawLinkWithQuery Uri_build this ref query h = (Throw TypeError, h)
  /\ LoadRawLinkWithBody JSON_stringify this ref data h = (Throw TypeError, h)
  /\ LoadRawLinkWithQueryAndBody JSON_stringify Uri_build this ref query data h
     = (Throw TypeError, h)
  /\ LoadRawLinkWithForm this ref data h = (Throw TypeError, h)
  /\ LoadRawLinkWithQueryAndForm Uri_build this ref query data h = (Throw TypeError, h).
Proof.
  intros (lt & table & Hl & Ht & Hr).
  assert (Hhas : HasLink this ref h = (Normal true, h)).
  { unfold HasLink. rewrite Hl. change (defined (VRef lt)) with true. cbv iota.
    rewrite (bind_normal _ _ _ _ _ (getProp_ref _ _ _ _ Ht eq_refl)). simpl. now rewrite Hr. }
  assert (Hget : GetLink this ref h = (Normal VNull, h)).
  { unfold GetLink. rewrite Hl, (getProp_ref _ _ _ _ Ht eq_refl). simpl. now rewrite Hr. }
  assert (Hquery : GetQueryLink Uri_build VNull query h
                   = (if no_query query then Normal VNull else Throw TypeError, h)).
  { destruct query; reflexivity. }
  split; [assumption|].
  unfold LoadLink, LoadLinkWithQuery, LoadLinkWithBody, LoadLinkWithQueryAndBody,
    LoadLinkWithForm, LoadLinkWithQueryAndForm, LoadRawLink, LoadRawLinkWithQuery,
    LoadRawLinkWithBody, LoadRawLinkWithQueryAndBody, LoadRawLinkWithForm,
    LoadRawLinkWithQueryAndForm.
  rewrite !(bind_normal _ _ _ _ _ Hhas). cbv iota.
  rewrite !(bind_normal _ _ _ _ _ Hget).
  unfold bind. rewrite Hquery.
  destruct (no_query query); repeat (split; [reflexivity|]); reflexivity.
Qed.
(** X24.  On a client whose link table is [null], [HasLink] throws a
    [TypeError] for every relation, and so does each of the twelve
    navigation operations, before it could throw the "Cannot find ref"
    error: the guard of [HasLink] lets [null] through to the property
    read. *)
Theorem null_table_throws_TypeError this ref (query data : JsData) h :
  links this = VNull ->
  HasLink this ref h = (Throw TypeError, h)
  /\ LoadLink this ref h = (Throw TypeError, h)
  /\ LoadLinkWithQuery Uri_build this ref query h = (Throw TypeError, h)
  /\ LoadLinkWithBody JSON_stringify this ref data h = (Throw TypeError, h)
  /\ LoadLinkWithQueryAndBody JSON_stringify Uri_build this ref query data h
     = (Throw TypeError, h)
  /\ LoadLinkWithForm this ref data h = (Throw TypeError, h)
  /\ LoadLinkWithQueryAndForm Uri_build this ref query data h = (Throw TypeError, h)
  /\ LoadRawLink this ref h = (Throw TypeError, h)
  /\ LoadRawLinkWithQuery Uri_build this ref query h = (Throw TypeError, h)
  /\ LoadRawLinkWithBody JSON_stringify this ref data h = (Throw TypeError, h)
  /\ LoadRawLinkWithQueryAndBody JSON_stringify Uri_build this ref query data h
     = (Throw TypeError, h)
  /\ LoadRawLinkWithForm this ref data h = (Throw TypeError, h)
  /\ LoadRawLinkWithQueryAndForm Uri_build this ref query data h = (Throw TypeError, h).
Proof.
  intros Hl.
  assert (Hhas : HasLink this ref h = (Throw TypeError, h)).
  { unfold HasLink. rewrite Hl. reflexivity. }
  split; [assumption|].
  unfold LoadLink, LoadLinkWithQuery, LoadLinkWithBody, LoadLinkWithQueryAndBody,
    LoadLinkWithForm, LoadLinkWithQueryAndForm, LoadRawLink, LoadRawLinkWithQuery,
    LoadRawLinkWithBody, LoadRawLinkWithQueryAndBody, LoadRawLinkWithForm,
    LoadRawLinkWithQueryAndForm.
  rewrite !(bind_throw _ _ _ _ _ Hhas).
  repeat (split; [reflexivity|]). reflexivity.
Qed.

End Requests.

Lemma insert_middle (h : Heap) x y t : <[length h := x]> (h ++ y :: t) = h ++ x :: t.
Proof. rewrite insert_app_r_alt by lia. now rewrite Nat.sub_diag. Qed.

Lemma lookup_middle (h : Heap) y t : (h ++ y :: t) !! length h = Some y.
Proof. rewrite lookup_app_r by lia. now rewrite Nat.sub_diag. Qed.

Lemma alloc_middle (h : Heap) y t o :
  alloc o (h ++ y :: t) = (Normal (VRef (S (length h) + length t)), h ++ y :: (t ++ [o])).
Proof.
  unfold alloc. rewrite length_app. simpl length.
  rewrite <- app_assoc. simpl. do 3 f_equal. lia.
Qed.

Lemma push_middle (h : Heap) cs t x :
  push (VRef (length h)) x (h ++ OArray cs :: t) = (Normal tt, h ++ OArray (cs ++ [x]) :: t).
Proof. rewrite (push_array _ _ _ _ (lookup_middle h _ t)). now rewrite insert_middle. Qed.

Lemma getProp_old l k o (h t : Heap) :
  h !! l = Some o -> modelled_prop o k = true ->
  getProp (VRef l) k (h ++ t) = (Normal (obj_prop o k), h ++ t).
Proof.
  intros Hl Hm. apply getProp_ref; [|assumption]. rewrite lookup_app_l; [assumption|].
  eapply lookup_lt_Some; eauto.
Qed.

Lemma seq_snoc_refs (a n : nat) (cs : list Value) :
  (cs ++ [VRef a]) ++ (VRef <$> seq (S a) n) = cs ++ (VRef <$> seq a (S n)).
Proof. rewrite <- app_assoc. reflexivity. Qed.

(** ** Enumerations *)

Section Enumerations.
Variable for_in : gmap string Value -> list string.

Lemma GetAllLinks_loop_cons this linkInfos key rest :
  GetAllLinks_loop this linkInfos (key :: rest) =
    (let* link := getProp (links this) key in
     let* href := getProp link "href" in
     let* method := getProp link "method" in
     let* info := alloc (OPlain {[ "href" := href; "method" := method;
                                   "rel" := VString key ]}) in
     push linkInfos info ;;;
     GetAllLinks_loop this linkInfos rest).
Proof. reflexivity. Qed.

Lemma GetAllEmbeds_loop_cons this result key rest :
  GetAllEmbeds_loop this result (key :: rest) =
    (let* list := getProp (embeds this) key in
     let* embed := alloc (OEmbed (new_Embed key list (fetcher this))) in
     push result embed ;;;
     GetAllEmbeds_loop this result rest).
Proof. reflexivity. Qed.

Lemma GetAllLinks_loop_spec this lt table (h : Heap) keys :
  links this = VRef lt ->
  h !! lt = Some (OPlain table) ->
  links_are_objects h table ->
  (forall k, k ∈ keys -> is_Some (table !! k)) ->
  forall cs cells,
    GetAllLinks_loop this (VRef (length h)) keys (h ++ OArray cs :: cells) =
      (Normal tt,
       h ++ OArray (cs ++ (VRef <$> seq (S (length h) + length cells) (length keys)))
         :: (cells ++ ((fun k => link_info (link_cell h table k) k) <$> keys))).
Proof.
  intros Hl Ht Hobj. induction keys as [|key keys IH]; intros Hkeys cs cells.
  - simpl. now rewrite !app_nil_r.
  - destruct (Hkeys key (list_elem_of_here _ _)) as [v Hv].
    destruct (Hobj key v Hv) as (ll & o & -> & Hll).
    assert (Hcell : link_cell h table key = o).
    { unfold link_cell. rewrite Hv, Hll. reflexivity. }
    rewrite GetAllLinks_loop_cons, Hl.
    rewrite (bind_normal _ _ _ _ _ (getProp_old _ _ _ _ _ Ht eq_refl)).
    simpl obj_prop. rewrite Hv.
    change (default (Object_prototype key) (Some (VRef ll))) with (VRef ll).
    rewrite (bind_normal _ _ _ _ _
               (getProp_old _ "href" _ _ _ Hll (modelled_absent _ "href" eq_refl))).
    rewrite (bind_normal _ _ _ _ _
               (getProp_old _ "method" _ _ _ Hll (modelled_absent _ "method" eq_refl))).
    rewrite (bind_normal _ _ _ _ _ (alloc_middle _ _ _ _)).
    rewrite (bind_normal _ _ _ _ _ (push_middle _ _ _ _)).
    rewrite IH by (intros k Hk; apply Hkeys; now apply list_elem_of_further).
    rewrite length_app. simpl length. rewrite Nat.add_1_r, <- plus_n_Sm.
    rewrite seq_snoc_refs. simpl fmap. rewrite <- app_assoc. simpl.
    unfold link_info at 2. rewrite Hcell. reflexivity.
Qed.

Lemma GetAllEmbeds_loop_spec this le table (h : Heap) keys :
  embeds this = VRef le ->
  h !! le = Some (OPlain table) ->
  (forall k, k ∈ keys -> is_Some (table !! k)) ->
  forall cs cells,
    GetAllEmbeds_loop this (VRef (length h)) keys (h ++ OArray cs :: cells) =
      (Normal tt,
       h ++ OArray (cs ++ (VRef <$> seq (S (length h) + length cells) (length keys)))
         :: (cells ++ ((fun k => OEmbed (embed_of this table k)) <$> keys))).
Proof.
  intros Hl Ht. induction keys as [|key keys IH]; intros Hkeys cs cells.
  - simpl. now rewrite !app_nil_r.
  - destruct (Hkeys key (list_elem_of_here _ _)) as [v Hv].
    rewrite GetAllEmbeds_loop_cons, Hl.
    rewrite (bind_normal _ _ _ _ _ (getProp_old _ _ _ _ _ Ht eq_refl)).
    simpl obj_prop. rewrite Hv.
    change (default (Object_prototype key) (Some v)) with v.
    rewrite (bind_normal _ _ _ _ _ (alloc_middle _ _ _ _)).
    rewrite (bind_normal _ _ _ _ _ (push_middle _ _ _ _)).
    rewrite IH by (intros k Hk; apply Hkeys; now apply list_elem_of_further).
    rewrite length_app. simpl length. rewrite Nat.add_1_r, <- plus_n_Sm.
    rewrite seq_snoc_refs. simpl fmap. rewrite <- app_assoc. simpl.
    unfold embed_of at 2. rewrite Hv. reflexivity.
Qed.

(** [for-in] visits the own keys of the table. *)
Lemma for_in_own_keys (table : gmap string Value) :
  for_in table ≡ₚ (map_to_list table).*1 ->
  (forall k, k ∈ for_in table -> is_Some (table !! k))
  /\ length (for_in table) = size table.
Proof.
  intros Hperm. split.
  - intros k Hk. rewrite Hperm in Hk. apply list_elem_of_fmap in Hk as [[k' v] [-> Hin]].
    apply elem_of_map_to_list in Hin. eauto.
  - rewrite Hperm, length_fmap. apply length_map_to_list.
Qed.

Lemma forIn_table l table (h t : Heap) :
  h !! l = Some (OPlain table) ->
  forIn for_in (VRef l) (h ++ t) = (Normal (for_in table), h ++ t).
Proof.
  intros Hl. simpl. rewrite lookup_app_l by (eapply lookup_lt_Some; eauto).
  now rewrite Hl.
Qed.

(** X14.  On a link table whose links are objects, [GetAllLinks] returns
    a new array with one new [HalLinkInfo] per key of the table, in the
    order of the enumeration: the [href] and [method] of the link and the
    key as [rel].  The store before the call is unchanged. *)
Theorem GetAllLinks_snapshot this lt table (h : Heap) :
  links this = VRef lt ->
  h !! lt = Some (OPlain table) ->
  links_are_objects h table ->
  for_in table ≡ₚ (map_to_list table).*1 ->
  GetAllLinks for_in this h =
    (Normal (VRef (length h)),
     h ++ OArray (VRef <$> seq (S (length h)) (size table))
       :: ((fun k => link_info (link_cell h table k) k) <$> for_in table)).
Proof.
  intros Hl Ht Hobj Hperm. destruct (for_in_own_keys table Hperm) as [Hkeys Hlen].
  unfold GetAllLinks, alloc. unfold bind at 1. rewrite Hl.
  rewrite (bind_normal _ _ _ _ _ (forIn_table _ _ _ _ Ht)).
  rewrite (bind_normal _ _ _ _ _
             (GetAllLinks_loop_spec this lt table h _ Hl Ht Hobj Hkeys [] [])).
  simpl. rewrite Hlen, Nat.add_0_r. reflexivity.
Qed.

(** X15.  On an embedded map, whose own keys [for-in] visits once each,
    [GetAllEmbeds] returns a new array with one new wrapper per key of the
    map, in the order of the enumeration, over the list that the map holds
    under the key; the wrapper of an enumerated key is the one that
    [GetEmbed] returns for it.  The store before the call is unchanged. *)
Theorem GetAllEmbeds_snapshot this le table (h : Heap) :
  embeds this = VRef le ->
  h !! le = Some (OPlain table) ->
  for_in table ≡ₚ (map_to_list table).*1 ->
  GetAllEmbeds for_in this h =
    (Normal (VRef (length h)),
     h ++ OArray (VRef <$> seq (S (length h)) (size table))
       :: ((fun k => OEmbed (embed_of this table k)) <$> for_in table))
  /\ forall key, key ∈ for_in table ->
       GetEmbed this key h = (Normal (embed_of this table key), h).
Proof.
  intros Hl Ht Hperm. destruct (for_in_own_keys table Hperm) as [Hkeys Hlen]. split.
  - unfold GetAllEmbeds, alloc. unfold bind at 1. rewrite Hl.
    rewrite (bind_normal _ _ _ _ _ (forIn_table _ _ _ _ Ht)).
    rewrite (bind_normal _ _ _ _ _
               (GetAllEmbeds_loop_spec this le table h _ Hl Ht Hkeys [] [])).
    simpl. rewrite Hlen, Nat.add_0_r. reflexivity.
  - intros key Hkey. destruct (Hkeys key Hkey) as [v Hv]. unfold GetEmbed. rewrite Hl.
    rewrite (bind_normal _ _ _ _ _ (getProp_ref _ key _ _ Ht eq_refl)).
    unfold embed_of. simpl obj_prop. now rewrite Hv.
Qed.

(** X16.  On a client without link table and without embedded map
    ([undefined] or [null]), [GetAllLinks] and [GetAllEmbeds] return a new
    empty array, while [GetLink] and [GetEmbed] throw a [TypeError] for
    every name. *)
Theorem enumerations_without_tables this (h : Heap) :
  nullish (links this) = true ->
  nullish (embeds this) = true ->
  GetAllLinks for_in this h = (Normal (VRef (length h)), h ++ [OArray []])
  /\ GetAllEmbeds for_in this h = (Normal (VRef (length h)), h ++ [OArray []])
  /\ (forall key, GetEmbed this key h = (Throw TypeError, h))
  /\ (forall ref, GetLink this ref h = (Throw TypeError, h)).
Proof.
  intros Hl He. unfold GetAllLinks, GetAllEmbeds, GetEmbed, GetLink.
  destruct (links this); try discriminate; destruct (embeds this); try discriminate;
    repeat split.
Qed.
End Enumerations.

(** ** Embedded clients *)

(** X17.  For a name that the embedded map gives an array of documents,
    [HasEmbed] answers [true], [GetEmbed] returns the wrapper of that
    array, and [GetAllClients] on it returns a new array of new clients;
    the client of a document that occurs for the first time is the client
    over that document, and it has the links of the document: [HasLink]
    and [GetLink] find every defined relation of its link table. *)
Theorem embedded_clients_navigate this name le table a docs (h : Heap) :
  embeds this = VRef le ->
  h !! le = Some (OPlain table) ->
  table !! name = Some (VRef a) ->
  h !! a = Some (OArray docs) ->
  Forall (is_document h) docs ->
  HasEmbed this name h = (Normal true, h)
  /\ GetEmbed this name h = (Normal (new_Embed name (VRef a) (fetcher this)), h)
  /\ exists h' : Heap,
       GetAllClients (new_Embed name (VRef a) (fetcher this)) h = (Normal (VRef (length h)), h')
       /\ h' !! length h = Some (OArray (VRef <$> seq (S (length h)) (length docs)))
       /\ forall i l props,
            docs !! i = Some (VRef l) -> h !! l = Some (OPlain props) ->
            VRef l ∉ take i docs ->
            h' !! (S (length h) + i)
              = Some (OClient (client_over (VRef l) (fetcher this) props))
            /\ forall lt rels ref v,
                 props !! "_links" = Some (VRef lt) -> h !! lt = Some (OPlain rels) ->
                 VRef lt ∉ docs -> rels !! ref = Some v -> v <> VUndefined ->
                 HasLink (client_over (VRef l) (fetcher this) props) ref h' = (Normal true, h')
                 /\ GetLink (client_over (VRef l) (fetcher this) props) ref h' = (Normal v, h').
Proof.
  intros He Hle Hname Ha Hdocs.
  assert (Hget : getProp (embeds this) name h = (Normal (VRef a), h)).
  { rewrite He, (getProp_ref _ _ _ _ Hle eq_refl). simpl. now rewrite Hname. }
  split.
  { unfold HasEmbed. replace (defined (embeds this)) with true by (now rewrite He).
    now rewrite (bind_normal _ _ _ _ _ Hget). }
  split.
  { unfold GetEmbed. now rewrite (bind_normal _ _ _ _ _ Hget). }
  destruct (GetAllClients_spec (new_Embed name (VRef a) (fetcher this)) a docs h
              eq_refl Ha Hdocs) as (h' & Hrun & Hlen & Harr & Hold & Hnew).
  exists h'. split; [exact Hrun|]. split; [exact Harr|].
  intros i l props Hi Hl Hfresh.
  pose proof (Hnew i l props Hi Hl) as Hc.
  rewrite bool_decide_eq_false_2 in Hc by assumption.
  split; [exact Hc|].
  intros lt rels ref v Hlinks Hlt Hnot Hv Hdef.
  assert (Hlt' : h' !! lt = Some (OPlain rels)).
  { rewrite Hold by (eapply lookup_lt_Some; eauto).
    rewrite bool_decide_eq_false_2 by assumption. now rewrite Hlt. }
  assert (Hlinksc : links (client_over (VRef l) (fetcher this) props) = VRef lt).
  { unfold client_over. simpl. now rewrite Hlinks. }
  assert (Hg : getProp (VRef lt) ref h' = (Normal v, h')).
  { rewrite (getProp_ref _ _ _ _ Hlt' eq_refl). simpl. now rewrite Hv. }
  unfold HasLink, GetLink. rewrite Hlinksc. change (defined (VRef lt)) with true. cbv iota.
  rewrite (bind_normal _ _ _ _ _ Hg). split; [|assumption].
  unfold ret. destruct v; try reflexivity. contradiction.
Qed.

(** ** More on the multipart encoder *)

Lemma jsonToFormData_array_loop parentKey elems :
  forall i form_data,
    (fix each (entries : list JsData) (i : nat) (form_data : FormData) : FormData :=
       match entries with
       | [] => form_data
       | value :: rest =>
           let constructedKey := constructedKey parentKey (index_key i) in
           each rest (S i)
             (if truthy value && constructor_is_Object value
              then jsonToFormData value (Some form_data) (Some constructedKey)
              else append form_data constructedKey value)
       end) elems i form_data
    = fold_left (jsonToFormData_turn parentKey) (array_entries elems i) form_data.
Proof.
  induction elems as [|value rest IH]; intros i form_data; [reflexivity|].
  simpl. rewrite IH. reflexivity.
Qed.

Lemma jsonToFormData_string_loop parentKey s :
  forall i form_data,
    fold_left (fun form_data '(key, value) =>
                 append form_data (constructedKey parentKey key) value)
              (string_entries s i) form_data
    = fold_left (jsonToFormData_turn parentKey) (string_entries s i) form_data.
Proof.
  unfold string_entries.
  induction (utf16_units s) as [|unit units IH]; intros i form_data; [reflexivity|].
  simpl. rewrite IH. f_equal. unfold jsonToFormData_turn. simpl.
  now rewrite andb_false_r.
Qed.

(** The loop, turn by turn, for every input. *)
Lemma jsonToFormData_turns v inFormData parentKey :
  jsonToFormData v inFormData parentKey =
    fold_left (jsonToFormData_turn parentKey) (for_in_entries v) (default [] inFormData).
Proof.
  destruct v; try reflexivity.
  - simpl jsonToFormData. apply jsonToFormData_string_loop.
  - simpl jsonToFormData. apply jsonToFormData_array_loop.
  - apply jsonToFormData_object.
Qed.


Lemma string_entries_values s : forall i k x,
  In (k, x) (string_entries s i) -> constructor_is_Object x = false.
Proof.
  unfold string_entries.
  induction (utf16_units s) as [|unit units IH]; intros i k x; simpl; [tauto|].
  intros [[= _ <-] | H]; [reflexivity | eauto].
Qed.

Lemma array_entries_values elems : forall i k x,
  In (k, x) (array_entries elems i) -> In x elems.
Proof.
  induction elems as [|e elems IH]; intros i k x; simpl; [tauto|].
  intros [[= _ <-] | H]; [now left | right; eauto].
Qed.

(** Induction on payloads along the descent of [jsonToFormData]: into the
    plain objects among the entries. *)
Lemma JsData_descent_ind (P : JsData -> Prop) :
  (forall v,
      (forall k x, In (k, x) (for_in_entries v) -> constructor_is_Object x = true -> P x) ->
      P v) ->
  forall v, P v.
Proof.
  intros H. induction v as [ | | | | |elems IH|ctor props IH] using JsData_nested_ind;
    apply H; simpl; intros k x Hin Hplain; try contradiction.
  - apply string_entries_values in Hin. congruence.
  - apply array_entries_values in Hin.
    rewrite List.Forall_forall in IH. now apply IH.
  - rewrite List.Forall_forall in IH. apply (IH (k, x) Hin).
Qed.

Lemma jsonToFormData_no_form v parentKey :
  jsonToFormData v (Some []) parentKey = jsonToFormData v None parentKey.
Proof. now rewrite !jsonToFormData_turns. Qed.

Lemma jsonToFormData_fields v inFormData parentKey :
  jsonToFormData v inFormData parentKey =
    default [] inFormData ++ flat_map (entry_fields parentKey) (for_in_entries v).
Proof.
  revert inFormData parentKey. induction v as [v IH] using JsData_descent_ind.
  intros inFormData parentKey. rewrite jsonToFormData_turns.
  enough (Hgen : forall entries,
             (forall k x, In (k, x) entries -> constructor_is_Object x = true ->
                forall inF p, jsonToFormData x inF p
                              = default [] inF ++ flat_map (entry_fields p) (for_in_entries x)) ->
             forall form_data,
               fold_left (jsonToFormData_turn parentKey) entries form_data
               = form_data ++ flat_map (entry_fields parentKey) entries)
    by (apply Hgen; exact IH).
  clear. induction entries as [|[key value] rest IHrest]; intros IH form_data.
  - simpl. now rewrite app_nil_r.
  - simpl fold_left. rewrite IHrest by (intros k x Hin Hplain; apply (IH k x); [now right | assumption]).
    simpl flat_map. rewrite app_assoc. f_equal.
    unfold jsonToFormData_turn, entry_fields. simpl fst; simpl snd.
    destruct (constructor_is_Object value) eqn:Hplain.
    + rewrite (plain_object_truthy _ Hplain). simpl andb. cbv iota.
      rewrite (IH key value (or_introl eq_refl) Hplain (Some form_data)).
      rewrite (IH key value (or_introl eq_refl) Hplain None). reflexivity.
    + rewrite andb_false_r. reflexivity.
Qed.

(** X18.  [jsonToFormData] keeps the fields that the form has and adds,
    entry by entry in the order of [for-in], the fields of the entry: the
    fields of the value under the extended prefix when the value is a
    plain object, the one field of the entry otherwise.  This holds for
    every input and every prefix; the entries of an array are its
    elements under their indices, the entries of a string its UTF-16 code
    units under theirs. *)
Theorem jsonToFormData_by_entries v inFormData parentKey :
  jsonToFormData v inFormData parentKey =
    default [] inFormData ++ flat_map (entry_fields parentKey) (for_in_entries v).
Proof. apply jsonToFormData_fields. Qed.

(** X19.  No field that [jsonToFormData] adds holds a plain object: if no
    field of the form does, no field of the result does. *)
Theorem jsonToFormData_fields_are_opaque v :
  forall inFormData parentKey,
    Forall (fun field => constructor_is_Object field.2 = false) (default [] inFormData) ->
    Forall (fun field => constructor_is_Object field.2 = false)
           (jsonToFormData v inFormData parentKey).
Proof.
  induction v as [v IH] using JsData_descent_ind.
  intros inFormData parentKey Hform. rewrite jsonToFormData_fields.
  apply Forall_app. split; [assumption|].
  apply Forall_flat_map, List.Forall_forall. intros [key value] Hin.
  unfold entry_fields. simpl fst; simpl snd.
  destruct (constructor_is_Object value) eqn:Hplain.
  - apply (IH key value Hin Hplain None). constructor.
  - repeat constructor. assumption.
Qed.

Lemma string_app_assoc (a b c : string) : (a +:+ b) +:+ c = a +:+ (b +:+ c).
Proof.
  induction a as [|x a IH]; [reflexivity|].
  change (String x ((a +:+ b) +:+ c) = String x (a +:+ (b +:+ c))). now rewrite IH.
Qed.

(** X20.  Under a prefix that is not empty, the name of every field that
    [jsonToFormData] adds begins with the prefix and a dot. *)
Theorem jsonToFormData_names_are_prefixed v :
  forall p, p <> "" ->
    Forall (fun field => exists name, field.1 = p +:+ "." +:+ name)
           (jsonToFormData v None (Some p)).
Proof.
  induction v as [v IH] using JsData_descent_ind.
  intros p Hp. rewrite jsonToFormData_fields. simpl app.
  apply Forall_flat_map, List.Forall_forall. intros [key value] Hin.
  unfold entry_fields. simpl fst; simpl snd. rewrite constructedKey_named by assumption.
  destruct (constructor_is_Object value) eqn:Hplain.
  - eapply Forall_impl; [apply (IH key value Hin Hplain); now apply append_nonempty|].
    intros field [name ->]. exists (key +:+ "." +:+ name).
    now rewrite !string_app_assoc.
  - repeat constructor. now exists key.
Qed.

(** X21.  A key that holds an empty plain object gives no field at all:
    the result is the one of the object without that key. *)
Theorem jsonToFormData_drops_empty_objects ctor before key after inFormData parentKey :
  jsonToFormData (DObject ctor (before ++ (key, DObject ObjectCtor []) :: after))
                 inFormData parentKey
  = jsonToFormData (DObject ctor (before ++ after)) inFormData parentKey.
Proof.
  rewrite !jsonToFormData_fields. simpl for_in_entries.
  rewrite !flat_map_app. reflexivity.
Qed.

(** * [ResultModel] *)

Module ResultModelFacts.
Import ResultModel.

Lemma appendData_readable h result cc vc :
  readable h result ->
  appendData h result cc vc = (Normal tt, [append_call h cc vc result]).
Proof.
  intros [Hn Hl]. unfold appendData, append_call.
  destruct result as [ | | | | |l| ]; try discriminate; try reflexivity.
  destruct (Hl l eq_refl) as [o Ho].
  now rewrite (getProp_name _ "data" _ _ Ho eq_refl).
Qed.

Lemma appendData_nullish h result cc vc :
  nullish result = true -> appendData h result cc vc = (Throw TypeError, []).
Proof. destruct result; try discriminate; reflexivity. Qed.

Lemma forEach_appendData_stops h cc vc good :
  Forall (readable h) good ->
  forall rest,
    forEach_appendData h (good ++ rest) cc vc =
      (let '(c, calls) := forEach_appendData h rest cc vc in
       (c, (append_call h cc vc <$> good) ++ calls)).
Proof.
  induction 1 as [|r good Hr _ IH]; intros rest; simpl.
  - now destruct (forEach_appendData h rest cc vc).
  - rewrite (appendData_readable _ _ _ _ Hr), IH.
    now destruct (forEach_appendData h rest cc vc).
Qed.

Section Adapter.
Variable isForEachable : Value -> Heap -> bool.
Variable forEach_items : Value -> Heap -> list Value.
Variable Iterable_items : list Value -> list Value.

(** X22.  [setData] on an array clears the model and then makes one call
    of [appendData] on the model per item that the iteration of
    [iter.Iterable] hands to the callback, in that order, each with the
    [data] of the item and with shims over the item itself.  Which items
    of the array the iteration hands over is the matter of the library
    ([Iterable_items]): when one of them is [undefined] or [null], reading
    its [data] throws a [TypeError], and the model keeps the calls made
    for the items before it. *)
Theorem setData_array h data elems good rest cc vc :
  isArray h data = Some elems ->
  Iterable_items elems = good ++ rest ->
  Forall (readable h) good ->
  match rest with [] => True | r :: _ => nullish r = true end ->
  setData isForEachable forEach_items Iterable_items h data cc vc =
    (match rest with [] => Normal tt | _ :: _ => Throw TypeError end,
     ModelClear :: (append_call h cc vc <$> good)).
Proof.
  intros Harr Hitems Hgood Hrest. unfold setData.
  assert (Hn : nullish data = false) by (destruct data; try discriminate; reflexivity).
  rewrite Hn, Harr, Hitems, (forEach_appendData_stops _ _ _ _ Hgood).
  destruct rest as [|r rest]; simpl.
  - now rewrite app_nil_r.
  - rewrite (appendData_nullish _ _ _ _ Hrest). now rewrite app_nil_r.
Qed.

Lemma appendData_appends h result cc vc :
  Forall (fun call => call <> ModelClear) (appendData h result cc vc).2.
Proof.
  unfold appendData. destruct (getProp result "data" h) as [[d|e|] h']; simpl;
    repeat constructor. discriminate.
Qed.

Lemma forEach_appendData_appends h items cc vc :
  Forall (fun call => call <> ModelClear) (forEach_appendData h items cc vc).2.
Proof.
  induction items as [|r rest IH]; simpl; [constructor|].
  pose proof (appendData_appends h r cc vc) as Hr.
  destruct (appendData h r cc vc) as [[[]|e|] calls]; simpl in *; try assumption.
  destruct (forEach_appendData h rest cc vc) as [c calls']. simpl in *.
  apply Forall_app. now split.
Qed.

(** X23.  Whatever it is given, [setData] clears the model first and
    never again: every later call appends.  For [undefined] and [null] it
    only clears. *)
Theorem setData_clears_once h data cc vc :
  exists c calls,
    setData isForEachable forEach_items Iterable_items h data cc vc = (c, ModelClear :: calls)
    /\ Forall (fun call => call <> ModelClear) calls
    /\ (nullish data = true -> c = Normal tt /\ calls = []).
Proof.
  unfold setData.
  destruct (nullish data) eqn:Hn.
  { eexists _, _. split; [reflexivity|]. split; [constructor|]. now intros _. }
  destruct (isArray h data) as [elems|].
  { pose proof (forEach_appendData_appends h (Iterable_items elems) cc vc) as H.
    destruct (forEach_appendData h (Iterable_items elems) cc vc) as [c calls].
    eexists _, _. split; [reflexivity|]. split; [exact H | discriminate]. }
  destruct (isForEachable data h).
  - destruct (truthy_value data).
    + pose proof (forEach_appendData_appends h (forEach_items data h) cc vc) as H.
      destruct (forEach_appendData h (forEach_items data h) cc vc) as [c calls].
      eexists _, _. split; [reflexivity|]. split; [exact H | discriminate].
    + eexists _, _. split; [reflexivity|]. split; [constructor | discriminate].
  - pose proof (appendData_appends h data cc vc) as H.
    destruct (appendData h data cc vc) as [c calls].
    eexists _, _. split; [reflexivity|]. split; [exact H | discriminate].
Qed.
End Adapter.

End ResultModelFacts.

(** * Runs of the further properties on the sample data *)

Lemma parseResult_accepts_witness :
  headers_get validation_failure "content-type" = Some "application/json"
  /\ parseResult JSON_parse_error_body validation_failure error_body []
     = JSON_parse_error_body error_body [].
Proof.
  split; [reflexivity|].
  apply (parseResult_accepts JSON_parse_error_body validation_failure error_body
           "application/json" [] eq_refl).
  discriminate.
Defined.

Lemma processResult_success_document_witness :
  ok halcyon_success = true
  /\ JSON_parse_document (text halcyon_success) []
     = (Normal (VRef 0), [OPlain {[ "title" := VString "root" ]}])
  /\ exists c h'',
       processResult JSON_parse_document halcyon_success transport []
         = (Normal (VRef 1), h'')
       /\ h'' !! 1 = Some (OClient c)
       /\ GetData c = VRef 0.
Proof.
  split; [reflexivity|]. split; [reflexivity|].
  destruct (processResult_success_document JSON_parse_document halcyon_success transport
              halcyonJsonMimeType 0 {[ "title" := VString "root" ]} []
              [OPlain {[ "title" := VString "root" ]}]
              eq_refl eq_refl eq_refl ltac:(discriminate) eq_refl eq_refl)
    as (c & h'' & H1 & H2 & H3 & _).
  exists c, h''. split; [exact H1|]. split; [exact H2 | exact H3].
Defined.

Lemma processResult_malformed_body_witness :
  JSON_rejects (text halcyon_success) [] = (Throw SyntaxError, [])
  /\ processResult JSON_rejects halcyon_success transport [] = (Throw SyntaxError, []).
Proof.
  split; [reflexivity|].
  apply (processResult_malformed_body JSON_rejects halcyon_success transport
           halcyonJsonMimeType SyntaxError [] [] eq_refl eq_refl ltac:(discriminate) eq_refl).
Defined.

Lemma processResult_untyped_success_witness :
  ok untyped_success = true
  /\ processResult JSON_rejects untyped_success transport []
     = (Normal (VRef 1), [OPlain ∅; OClient (mkClient (VRef 0) transport VUndefined VUndefined)]).
Proof.
  split; [reflexivity|].
  apply (processResult_untyped_success JSON_rejects untyped_success transport []);
    reflexivity.
Defined.

Lemma validation_errors_lookup_witness :
  error_store !! 1 = Some (OPlain {[ "message" := VString "bad"; "errors" := VRef 0 ]})
  /\ getValidationError sample_error "name" error_store
     = (Normal (VString "required"), error_store)
  /\ hasValidationError sample_error "name" error_store = (Normal true, error_store)
  /\ hasValidationError sample_error "address" error_store = (Normal false, error_store)
  /\ getValidationError sample_error "toString" error_store
     = (Normal (VBuiltin "Object.prototype.toString"), error_store)
  /\ hasValidationError sample_error "toString" error_store = (Normal true, error_store).
Proof.
  split; [reflexivity|].
  assert (H : forall name, exists v,
             getValidationError sample_error name error_store = (Normal v, error_store)
             /\ hasValidationError sample_error name error_store
                = (Normal (defined v), error_store)
             /\ v = default (Object_prototype name)
                            (({[ "name" := VString "required" ]} : gmap string Value)
                               !! name)).
  { intros name.
    destruct (validation_errors_lookup sample_error 1
                {[ "message" := VString "bad"; "errors" := VRef 0 ]} name error_store
                eq_refl eq_refl
                (or_intror (ex_intro _ 0 (ex_intro _ {[ "name" := VString "required" ]}
                                            (conj eq_refl eq_refl)))))
      as (v & Hget & Hhas & _ & Hv).
    exists v. split; [exact Hget|]. split; [exact Hhas|].
    exact (Hv 0 {[ "name" := VString "required" ]} eq_refl eq_refl). }
  destruct (H "name") as (v1 & Hget1 & Hhas1 & ->).
  destruct (H "address") as (v2 & _ & Hhas2 & ->).
  destruct (H "toString") as (v3 & Hget3 & Hhas3 & ->).
  split; [exact Hget1|]. split; [exact Hhas1|]. split; [exact Hhas2|].
  split; [exact Hget3 | exact Hhas3].
Defined.

Lemma validation_errors_null_witness :
  null_errors_store !! 0 = Some (OPlain {[ "message" := VString "bad"; "errors" := VNull ]})
  /\ getValidationError null_errors_error "name" null_errors_store
     = (Throw TypeError, null_errors_store).
Proof.
  split; [reflexivity|].
  apply (validation_errors_null null_errors_error 0
           {[ "message" := VString "bad"; "errors" := VNull ]} "name" null_errors_store
           eq_refl eq_refl eq_refl).
Defined.

Lemma addKey_capitalises_witness :
  addKey "Address" "city" = Normal "Address.City"
  /\ addKey "Address" "City" = addKey "Address" "city".
Proof.
  destruct (addKey_capitalises "Address" (Ascii.ascii_of_nat 99) "ity" ltac:(discriminate) eq_refl)
    as (H1 & H2 & _).
  split; [exact H1 | exact H2].
Defined.

Lemma sample_self_relation :
  relation_is sample_store sample_client "self" 2
    (OPlain {[ "href" := VString "/a"; "method" := VString "GET" ]}).
Proof.
  exists 1, {[ "self" := VRef 2 ]}.
  split; [reflexivity|]. split; [reflexivity|]. split; reflexivity.
Defined.

Lemma raw_requests_witness :
  no_query sample_query = false
  /\ LoadRawLink sample_client "self" sample_store
     = (Normal (Fetch transport
                  (mkRequest (VString "/a") (VString "GET") BodyUndefined base_headers)),
        sample_store)
  /\ (LoadRawLinkWithQuery sample_uri sample_client "self" sample_query sample_store).1
     = Normal (Fetch transport
                 (mkRequest (VString "/a?page=2") (VString "GET") BodyUndefined base_headers)).
Proof.
  split; [reflexivity|].
  destruct (raw_requests sample_stringify sample_uri sample_client "self" 2 _
              sample_query DNull sample_store sample_self_relation eq_refl)
    as (H1 & _ & _ & H4 & _).
  split; [exact H1|]. now rewrite H4.
Defined.

Lemma no_query_is_no_rewrite_witness :
  no_query DNull = true
  /\ LoadLinkWithQuery sample_uri sample_client "self" DNull sample_store
     = LoadLink sample_client "self" sample_store.
Proof.
  split; [reflexivity|].
  apply (no_query_is_no_rewrite sample_stringify sample_uri sample_client "self"
           DNull DNull sample_store eq_refl).
Defined.

Lemma null_link_throws_TypeError_witness :
  relation_is_null null_link_store null_link_client "self"
  /\ HasLink null_link_client "self" null_link_store = (Normal true, null_link_store)
  /\ LoadLink null_link_client "self" null_link_store = (Throw TypeError, null_link_store).
Proof.
  assert (H : relation_is_null null_link_store null_link_client "self").
  { exists 0, {[ "self" := VNull ]}. split; [reflexivity|]. split; reflexivity. }
  split; [exact H|].
  destruct (null_link_throws_TypeError sample_stringify sample_uri null_link_client "self"
              DUndefined DNull null_link_store H) as (H1 & H2 & _).
  split; [exact H1 | exact H2].
Defined.

Lemma null_table_throws_TypeError_witness :
  links null_table_client = VNull
  /\ HasLink null_table_client "self" [OPlain ∅] = (Throw TypeError, [OPlain ∅])
  /\ LoadLink null_table_client "self" [OPlain ∅] = (Throw TypeError, [OPlain ∅]).
Proof.
  split; [reflexivity|].
  destruct (null_table_throws_TypeError sample_stringify sample_uri null_table_client
              "self" DUndefined DNull [OPlain ∅] eq_refl) as (H1 & H2 & _).
  split; [exact H1 | exact H2].
Defined.

Lemma sample_links_are_objects :
  links_are_objects sample_store {[ "self" := VRef 2 ]}.
Proof.
  intros key v Hv. apply lookup_singleton_Some in Hv as [_ <-].
  exists 2, (OPlain {[ "href" := VString "/a"; "method" := VString "GET" ]}).
  split; reflexivity.
Defined.

Lemma GetAllLinks_snapshot_witness :
  links_are_objects sample_store {[ "self" := VRef 2 ]}
  /\ GetAllLinks sorted_for_in sample_client sample_store =
       (Normal (VRef 8),
        sample_store ++
          [OArray [VRef 9];
           OPlain {[ "href" := VString "/a"; "method" := VString "GET";
                     "rel" := VString "self" ]}]).
Proof.
  split; [exact sample_links_are_objects|].
  rewrite (GetAllLinks_snapshot sorted_for_in sample_client 1 {[ "self" := VRef 2 ]}
             sample_store eq_refl eq_refl sample_links_are_objects
             (Permutation_refl _)).
  reflexivity.
Defined.

Lemma GetAllEmbeds_snapshot_witness :
  sample_store !! 3 = Some (OPlain {[ "items" := VRef 4 ]})
  /\ GetAllEmbeds sorted_for_in sample_client sample_store =
       (Normal (VRef 8),
        sample_store ++ [OArray [VRef 9]; OEmbed (new_Embed "items" (VRef 4) transport)])
  /\ GetEmbed sample_client "items" sample_store
     = (Normal (new_Embed "items" (VRef 4) transport), sample_store).
Proof.
  split; [reflexivity|].
  destruct (GetAllEmbeds_snapshot sorted_for_in sample_client 3 {[ "items" := VRef 4 ]}
              sample_store eq_refl eq_refl (Permutation_refl _)) as [H1 H2].
  split; [rewrite H1; reflexivity|].
  apply (H2 "items"). vm_compute. constructor.
Defined.

Lemma enumerations_without_tables_witness :
  nullish (links bare_client) = true
  /\ nullish (embeds bare_client) = true
  /\ GetAllLinks sorted_for_in bare_client [OPlain ∅] = (Normal (VRef 1), [OPlain ∅; OArray []])
  /\ GetEmbed bare_client "items" [OPlain ∅] = (Throw TypeError, [OPlain ∅]).
Proof.
  split; [reflexivity|]. split; [reflexivity|].
  destruct (enumerations_without_tables sorted_for_in bare_client [OPlain ∅]
              eq_refl eq_refl) as (H1 & _ & H3 & _).
  split; [exact H1 | apply H3].
Defined.

Lemma embedded_clients_navigate_witness :
  Forall (is_document sample_store) [VRef 5]
  /\ HasEmbed sample_client "items" sample_store = (Normal true, sample_store)
  /\ exists h' : Heap,
       GetAllClients (new_Embed "items" (VRef 4) transport) sample_store
         = (Normal (VRef 8), h')
       /\ HasLink (client_over (VRef 5) transport {[ "_links" := VRef 6; "id" := VNumber 7 ]})
                  "self" h' = (Normal true, h').
Proof.
  assert (H : Forall (is_document sample_store) [VRef 5]).
  { repeat constructor. eexists 5, _. split; reflexivity. }
  split; [exact H|].
  destruct (embedded_clients_navigate sample_client "items" 3 {[ "items" := VRef 4 ]} 4
              [VRef 5] sample_store eq_refl eq_refl eq_refl eq_refl H)
    as (H1 & _ & h' & Hrun & _ & Hclients).
  split; [exact H1|]. exists h'. split; [exact Hrun|].
  destruct (Hclients 0 5 {[ "_links" := VRef 6; "id" := VNumber 7 ]} eq_refl eq_refl
              ltac:(apply not_elem_of_nil)) as [_ Hnav].
  destruct (Hnav 6 {[ "self" := VRef 7 ]} "self" (VRef 7) eq_refl eq_refl
              ltac:(intros Hin; apply list_elem_of_singleton in Hin; discriminate)
              eq_refl ltac:(discriminate)) as [Hhas _].
  exact Hhas.
Defined.

Lemma jsonToFormData_fields_are_opaque_witness :
  Forall (fun field => constructor_is_Object field.2 = false)
         (jsonToFormData nested_example None None).
Proof.
  apply (jsonToFormData_fields_are_opaque nested_example None None). constructor.
Defined.

Lemma jsonToFormData_names_are_prefixed_witness :
  "form" <> ""
  /\ Forall (fun field => exists name, field.1 = "form" +:+ "." +:+ name)
            (jsonToFormData nested_example None (Some "form")).
Proof.
  split; [discriminate|].
  apply (jsonToFormData_names_are_prefixed nested_example "form"). discriminate.
Defined.

Lemma setData_array_witness :
  ResultModel.isArray results_store (VRef 2)
    = Some [VRef 0; VUndefined; VRef 1; VNull; VRef 0]
  /\ sample_Iterable_items [VRef 0; VUndefined; VRef 1; VNull; VRef 0]
     = [VRef 0; VRef 1] ++ [VNull; VRef 0]
  /\ ResultModel.setData (fun _ _ => false) (fun _ _ => []) sample_Iterable_items
       results_store (VRef 2) (Some (ResultModel.CallbackId 1)) None
     = (Throw TypeError,
        [ResultModel.ModelClear;
         ResultModel.ModelAppendData (VString "first")
           (Some (ResultModel.createdShim (ResultModel.CallbackId 1) (VRef 0))) None;
         ResultModel.ModelAppendData (VString "second")
           (Some (ResultModel.createdShim (ResultModel.CallbackId 1) (VRef 1))) None]).
Proof.
  split; [reflexivity|]. split; [reflexivity|].
  apply (ResultModelFacts.setData_array (fun _ _ => false) (fun _ _ => [])
           sample_Iterable_items results_store (VRef 2)
           [VRef 0; VUndefined; VRef 1; VNull; VRef 0]
           [VRef 0; VRef 1] [VNull; VRef 0] (Some (ResultModel.CallbackId 1)) None
           eq_refl eq_refl).
  - repeat constructor; try reflexivity; intros l [= <-]; eexists; reflexivity.
  - reflexivity.
Defined.
